(** * pyghfd: the GitHub folder downloader ([scripts/pyghfd/ghfd.py])

    A shallow embedding of class [GitHubFolderDownloader]: the URL parser
    [parse_github_url] with its revision classifier, and the sparse-checkout
    orchestrator [download_with_sparse_checkout] with the placement of the
    result, run against an explicit file-system state and a process
    collaborator.

    Conventions.
    - A Python [str] is a [string]; the characters are octets and the
      methods [lower], [strip], [split], ... are the ASCII ones.
    - [urllib.parse.urlparse] and [subprocess.run] are collaborators from
      outside the repository: general statements take them as parameters,
      concrete runs instantiate them ([Stub.urlparse], [Stub.git]).
    - [print] has no effect on the result and is left out. *)

From Stdlib Require Import String Ascii List Bool Arith ZArith Lia.
From stdpp Require Import base option list gmap strings.
Import ListNotations.
Local Open Scope string_scope.
Local Open Scope list_scope.

(* ===================================================================== *)
(** ** Python's string methods, as far as the program uses them *)
(* ===================================================================== *)

Module PyStr.

(** [c in s] for a one-character [c]. *)
Fixpoint char_in (c : ascii) (s : string) : bool :=
  match s with
  | EmptyString => false
  | String a s' => Ascii.eqb a c || char_in c s'
  end.

(** [all(p(c) for c in s)]. *)
Fixpoint all (p : ascii -> bool) (s : string) : bool :=
  match s with
  | EmptyString => true
  | String a s' => p a && all p s'
  end.

Definition is_upper (c : ascii) : bool :=
  let n := nat_of_ascii c in (65 <=? n)%nat && (n <=? 90)%nat.

Definition lower_char (c : ascii) : ascii :=
  if is_upper c then ascii_of_nat (nat_of_ascii c + 32) else c.

(** [s.lower()]. *)
Fixpoint lower (s : string) : string :=
  match s with
  | EmptyString => EmptyString
  | String a s' => String (lower_char a) (lower s')
  end.

(** [s.startswith(p)]. *)
Definition startswith (p s : string) : bool := String.prefix p s.

(** [s.lstrip(c)] for a one-character [c]. *)
Fixpoint lstrip (c : ascii) (s : string) : string :=
  match s with
  | EmptyString => EmptyString
  | String a s' => if Ascii.eqb a c then lstrip c s' else s
  end.

(** [s.rstrip(c)] for a one-character [c]. *)
Fixpoint rstrip (c : ascii) (s : string) : string :=
  match s with
  | EmptyString => EmptyString
  | String a s' =>
      match rstrip c s' with
      | EmptyString => if Ascii.eqb a c then EmptyString else String a EmptyString
      | r => String a r
      end
  end.

(** [s.strip(c)]. *)
Definition strip (c : ascii) (s : string) : string := rstrip c (lstrip c s).

(** [s.split(c)]: never the empty list, [''.split('/') == ['']]. *)
Fixpoint split (c : ascii) (s : string) : list string :=
  match s with
  | EmptyString => [EmptyString]
  | String a s' =>
      if Ascii.eqb a c then EmptyString :: split c s'
      else match split c s' with
           | [] => [String a EmptyString]
           | seg :: segs => String a seg :: segs
           end
  end.

(** [sep.join(l)]. *)
Fixpoint join (sep : string) (l : list string) : string :=
  match l with
  | [] => EmptyString
  | [x] => x
  | x :: l' => x ++ sep ++ join sep l'
  end.

(** [s.replace(a, b)] for one-character [a] and [b]. *)
Fixpoint replace (a b : ascii) (s : string) : string :=
  match s with
  | EmptyString => EmptyString
  | String c s' => String (if Ascii.eqb c a then b else c) (replace a b s')
  end.

(** [s[:n]]. *)
Fixpoint take (n : nat) (s : string) : string :=
  match n, s with
  | O, _ => EmptyString
  | _, EmptyString => EmptyString
  | S n', String a s' => String a (take n' s')
  end.

(** [l[n:]] on a list. *)
Definition drop {A} (n : nat) (l : list A) : list A := List.skipn n l.

(** [l.insert(i, x)]: a negative index counts from the end, and an index
    out of range is clamped to the nearest end. *)
Definition insert {A} (i : Z) (x : A) (l : list A) : list A :=
  let n := Z.of_nat (length l) in
  let j := if (i <? 0)%Z then Z.max 0 (i + n) else Z.min i n in
  List.firstn (Z.to_nat j) l ++ x :: List.skipn (Z.to_nat j) l.

End PyStr.

(* ===================================================================== *)
(** ** [pathlib.PurePosixPath] *)
(* ===================================================================== *)

Module PurePath.

(** A path is its root flag and its components; empty components and
    ['.'] are dropped when a string is parsed, ['..'] is kept.  (A root
    of exactly two slashes, which POSIX lets differ from one, is not
    told apart.) *)
Record t : Type := mk { anchored : bool; parts : list string }.

Definition of_str (s : string) : t :=
  {| anchored := PyStr.startswith "/" s;
     parts := List.filter (fun c => negb (String.eqb c "") && negb (String.eqb c "."))
                          (PyStr.split "/" s) |}.

(** [p / q]: an absolute right operand replaces the left one. *)
Definition truediv (p q : t) : t :=
  if anchored q then q
  else {| anchored := anchored p; parts := parts p ++ parts q |}.

(** [p.name] *)
Definition name (p : t) : string := List.last (parts p) "".

(** [str(p)] *)
Definition str (p : t) : string :=
  if anchored p then "/" ++ PyStr.join "/" (parts p)
  else match parts p with
       | [] => "."
       | _ => PyStr.join "/" (parts p)
       end.

End PurePath.

Notation "p // s" := (PurePath.truediv p (PurePath.of_str s))
  (at level 40, left associativity).

(* ===================================================================== *)
(** ** Exceptions *)
(* ===================================================================== *)

(** The exception classes the program raises or catches.  [OSError] stands
    for every other subclass of [Exception] a collaborator may raise
    ([FileExistsError], [NotADirectoryError], [PermissionError], ...). *)
Inductive exn : Type :=
| ValueError (msg : string)
| CalledProcessError (cmd : list string)
| FileNotFoundError (msg : string)
| OSError (msg : string).

(** The value of an expression that may raise. *)
Definition result (A : Type) : Type := (exn + A)%type.

(* ===================================================================== *)
(** ** The reference parser *)
(* ===================================================================== *)

(** [ref_type] is one of the strings ['branch'], ['commit'], ['tag']. *)
Inductive RefType : Type := Branch | Commit | Tag.

Definition RefType_eqb (a b : RefType) : bool :=
  match a, b with
  | Branch, Branch | Commit, Commit | Tag, Tag => true
  | _, _ => false
  end.

Definition RefType_str (k : RefType) : string :=
  match k with Branch => "branch" | Commit => "commit" | Tag => "tag" end.

(** The tuple [(owner, repo, git_ref, ref_type, folder_path)]. *)
Record Reference : Type := mkReference {
  owner : string;
  repo : string;
  git_ref : string;
  ref_type : RefType;
  folder_path : string
}.

(** Lines 44-50 (and again 57-63): commit hash, tag or branch. *)
Definition classify (git_ref : string) : RefType :=
  if (String.length git_ref =? 40)%nat
     && PyStr.all (fun c => PyStr.char_in c "0123456789abcdef") (PyStr.lower git_ref)
  then Commit
  else if PyStr.char_in "." git_ref || PyStr.startswith "v" git_ref
  then Tag
  else Branch.

(** The attributes [__init__] sets.  [output_dir] holds the value of
    [Path(output_dir).expanduser()], which depends on the user's home. *)
Record GitHubFolderDownloader : Type := mkDownloader {
  github_url : string;
  output_dir : PurePath.t
}.

Definition init (github_url : string) (output_dir : PurePath.t)
  : GitHubFolderDownloader :=
  {| github_url := PyStr.rstrip "/" github_url; output_dir := output_dir |}.

Section Parser.

(** [urlparse(url).path], which may raise [ValueError] by itself. *)
Variable urlparse_path : string -> result string.

(** [parsed.path.strip('/').split('/')] *)
Definition path_parts_of (path : string) : list string :=
  PyStr.split "/" (PyStr.strip "/" path).

(** Lines 27-65, on the list [path_parts]. *)
Definition parse_path_parts (path_parts : list string) : result Reference :=
  if (length path_parts <? 2)%nat then
    inl (ValueError "Invalid GitHub URL format")
  else
    let owner := nth 0 path_parts "" in
    let repo := nth 1 path_parts "" in
    let folder_path := "" in
    let git_ref := "main" in
    let ref_type := Branch in
    if (2 <? length path_parts)%nat then
      if String.eqb (nth 2 path_parts "") "tree" && (3 <? length path_parts)%nat then
        let git_ref := nth 3 path_parts "" in
        let folder_path :=
          if (4 <? length path_parts)%nat
          then PyStr.join "/" (PyStr.drop 4 path_parts) else folder_path in
        let ref_type :=
          if (String.length git_ref =? 40)%nat
             && PyStr.all (fun c => PyStr.char_in c "0123456789abcdef")
                          (PyStr.lower git_ref)
          then Commit
          else if PyStr.char_in "." git_ref || PyStr.startswith "v" git_ref
          then Tag
          else Branch in
        inr (mkReference owner repo git_ref ref_type folder_path)
      else if String.eqb (nth 2 path_parts "") "blob" && (3 <? length path_parts)%nat then
        let git_ref := nth 3 path_parts "" in
        let folder_path :=
          if (4 <? length path_parts)%nat
          then PyStr.join "/" (PyStr.drop 4 path_parts) else folder_path in
        let ref_type :=
          if (String.length git_ref =? 40)%nat
             && PyStr.all (fun c => PyStr.char_in c "0123456789abcdef")
                          (PyStr.lower git_ref)
          then Commit
          else if PyStr.char_in "." git_ref || PyStr.startswith "v" git_ref
          then Tag
          else Branch in
        inr (mkReference owner repo git_ref ref_type folder_path)
      else
        inr (mkReference owner repo git_ref ref_type folder_path)
    else
      inr (mkReference owner repo git_ref ref_type folder_path).

(** Lines 22-65. *)
Definition parse_github_url (self : GitHubFolderDownloader) : result Reference :=
  match urlparse_path (github_url self) with
  | inl e => inl e
  | inr path => parse_path_parts (path_parts_of path)
  end.

End Parser.

(* ===================================================================== *)
(** ** The file system *)
(* ===================================================================== *)

(** A directory maps names to files and directories.  Symbolic links,
    permissions and timestamps are not modelled, and ['..'] is a name like
    any other. *)
#[warning="-register-all"]
Inductive node : Type :=
| File (data : string)
| Dir (entries : gmap string node).

Module FS.

(** The components from the root down to an entry. *)
Definition key : Type := list string.

Fixpoint lookup (k : key) (n : node) : option node :=
  match k with
  | [] => Some n
  | c :: k' =>
      match n with
      | File _ => None
      | Dir es =>
          match es !! c with
          | Some n' => lookup k' n'
          | None => None
          end
      end
  end.

(** Put [new] at [k], creating the missing directories above it the way
    [os.makedirs] does; [None] when a file is in the way. *)
Fixpoint store (k : key) (new : node) (n : node) : option node :=
  match k with
  | [] => Some new
  | c :: k' =>
      match n with
      | File _ => None
      | Dir es =>
          match store k' new (default (Dir ∅) (es !! c)) with
          | Some n' => Some (Dir (<[c := n']> es))
          | None => None
          end
      end
  end.

(** Take the entry at [k] away, with all that is below it. *)
Fixpoint remove (k : key) (n : node) : node :=
  match k with
  | [] => Dir ∅
  | c :: k' =>
      match n with
      | File _ => n
      | Dir es =>
          match k' with
          | [] => Dir (delete c es)
          | _ :: _ =>
              match es !! c with
              | Some n' => Dir (<[c := remove k' n']> es)
              | None => n
              end
          end
      end
  end.

Definition is_dir (k : key) (n : node) : bool :=
  match lookup k n with Some (Dir _) => true | _ => false end.

Definition exists_ (k : key) (n : node) : bool :=
  match lookup k n with Some _ => true | None => false end.

Definition parent (k : key) : key := List.removelast k.

(** One key lies at or below the other. *)
Definition comparable (a b : key) : Prop := a `prefix_of` b \/ b `prefix_of` a.

End FS.

(* ===================================================================== *)
(** ** Processes, the world, and the monad of the program *)
(* ===================================================================== *)

(** What [subprocess.run] meets: the program ran and exited with a return
    code, or it could not be started. *)
Inductive ProcResult : Type :=
| Exited (returncode : Z)
| NoSuchProgram (msg : string)
| LaunchFailed (msg : string).

(** The collaborators of one run. *)
Record Collaborators : Type := mkCollaborators {
  (** [urlparse(url).path] *)
  urlparse_path : string -> result string;
  (** the effect of running a command on the file system, and its result *)
  process : list string -> node -> ProcResult * node;
  (** the directory name [tempfile] settles on *)
  mkdtemp_name : string;
  (** the working directory, against which relative paths are resolved *)
  cwd : FS.key
}.

(** The state a run threads: the file system, and the commands run so far
    with their results (oldest first). *)
Record World : Type := mkWorld {
  root : node;
  trace : list (list string * ProcResult)
}.

Definition M (A : Type) : Type := World -> result A * World.

#[global] Instance M_ret : MRet M := fun A a w => (inr a, w).

#[global] Instance M_bind : MBind M := fun A B f m w =>
  match m w with
  | (inr a, w') => f a w'
  | (inl e, w') => (inl e, w')
  end.

Definition raise {A} (e : exn) : M A := fun w => (inl e, w).

(** [try: m  except <the classes on which handler is Some h>: h] *)
Definition try_except {A} (m : M A) (handler : exn -> option (M A)) : M A :=
  fun w => match m w with
           | (inr a, w') => (inr a, w')
           | (inl e, w') =>
               match handler e with
               | Some h => h w'
               | None => (inl e, w')
               end
           end.

Definition with_root (f : node -> result node) : M unit :=
  fun w => match f (root w) with
           | inr r => (inr tt, mkWorld r (trace w))
           | inl e => (inl e, w)
           end.

Definition read {A} (f : node -> A) : M A := fun w => (inr (f (root w)), w).

(** What the run tells its caller besides [True] or [False]: the final
    message, one per [except] clause. *)
Inductive Report : Type :=
| DownloadCompleted
| GitCommandFailed (cmd : list string)
| NotFound (msg : string)
| UnexpectedError (e : exn).

(* ===================================================================== *)
(** ** The orchestrator *)
(* ===================================================================== *)

Section Run.

Variable env : Collaborators.

(** Where a path leads: relative paths start at the working directory. *)
Definition key (p : PurePath.t) : FS.key :=
  if PurePath.anchored p then PurePath.parts p
  else cwd env ++ PurePath.parts p.

(** [subprocess.run(cmd, check=True, capture_output=True, text=True)] *)
Definition subprocess_run (cmd : list string) : M unit :=
  fun w =>
    let (r, root') := process env cmd (root w) in
    let w' := mkWorld root' (trace w ++ [(cmd, r)]) in
    match r with
    | Exited rc =>
        if (rc =? 0)%Z then (inr tt, w') else (inl (CalledProcessError cmd), w')
    | NoSuchProgram msg => (inl (FileNotFoundError msg), w')
    | LaunchFailed msg => (inl (OSError msg), w')
    end.

(** [p.exists()] *)
Definition Path_exists (p : PurePath.t) : M bool := read (FS.exists_ (key p)).

(** [p.is_dir()] *)
Definition Path_is_dir (p : PurePath.t) : M bool := read (FS.is_dir (key p)).

(** [shutil.rmtree(p)] *)
Definition shutil_rmtree (p : PurePath.t) : M unit :=
  with_root (fun r =>
    match FS.lookup (key p) r with
    | None => inl (FileNotFoundError (PurePath.str p))
    | Some (File _) => inl (OSError "Not a directory")
    | Some (Dir _) => inr (FS.remove (key p) r)
    end).

(** [shutil.copytree(src, dst)]: the source is read whole, then written
    below [dst], which must not exist yet; its parents are created. *)
Definition shutil_copytree (src dst : PurePath.t) : M unit :=
  with_root (fun r =>
    match FS.lookup (key src) r with
    | None => inl (FileNotFoundError (PurePath.str src))
    | Some (File _) => inl (OSError "Not a directory")
    | Some (Dir es) =>
        if FS.exists_ (key dst) r then inl (OSError "File exists")
        else match FS.store (key dst) (Dir es) r with
             | Some r' => inr r'
             | None => inl (OSError "Not a directory")
             end
    end).

(** [shutil.copy2(src, dst)], [dst] naming the new file. *)
Definition shutil_copy2 (src dst : PurePath.t) : M unit :=
  with_root (fun r =>
    match FS.lookup (key src) r with
    | None => inl (FileNotFoundError (PurePath.str src))
    | Some (Dir _) => inl (OSError "Is a directory")
    | Some (File data) =>
        match FS.lookup (FS.parent (key dst)) r, FS.lookup (key dst) r with
        | Some (Dir _), Some (Dir _) => inl (OSError "Is a directory")
        | Some (Dir _), _ =>
            match FS.store (key dst) (File data) r with
            | Some r' => inr r'
            | None => inl (OSError "Not a directory")
            end
        | Some (File _), _ => inl (OSError "Not a directory")
        | None, _ => inl (FileNotFoundError (PurePath.str dst))
        end
    end).

(** [p.mkdir(parents=True, exist_ok=True)] *)
Definition Path_mkdir (p : PurePath.t) : M unit :=
  with_root (fun r =>
    match FS.lookup (key p) r with
    | Some (Dir _) => inr r
    | Some (File _) => inl (OSError "File exists")
    | None =>
        match FS.store (key p) (Dir ∅) r with
        | Some r' => inr r'
        | None => inl (OSError "Not a directory")
        end
    end).

(** [with open(p, 'w') as f: f.write(data)] *)
Definition write_text (p : PurePath.t) (data : string) : M unit :=
  with_root (fun r =>
    match FS.lookup (FS.parent (key p)) r, FS.lookup (key p) r with
    | Some (Dir _), Some (Dir _) => inl (OSError "Is a directory")
    | Some (Dir _), _ =>
        match FS.store (key p) (File data) r with
        | Some r' => inr r'
        | None => inl (OSError "Not a directory")
        end
    | Some (File _), _ => inl (OSError "Not a directory")
    | None, _ => inl (FileNotFoundError (PurePath.str p))
    end).

(** [list(p.iterdir())], as the names of the entries. *)
Definition Path_iterdir (p : PurePath.t) : M (list string) :=
  fun w =>
    match FS.lookup (key p) (root w) with
    | Some (Dir es) => (inr (map_to_list es).*1, w)
    | Some (File _) => (inl (OSError "Not a directory"), w)
    | None => (inl (FileNotFoundError (PurePath.str p)), w)
    end.

(** [with tempfile.TemporaryDirectory() as temp_dir: body]: the directory
    is made, and removed again however the body ends. *)
Definition with_TemporaryDirectory {A} (body : string -> M A) : M A :=
  fun w =>
    let temp_dir := mkdtemp_name env in
    let k := key (PurePath.of_str temp_dir) in
    match FS.lookup (FS.parent k) (root w), FS.lookup k (root w) with
    | Some (Dir _), None =>
        match FS.store k (Dir ∅) (root w) with
        | Some r =>
            let (res, w') := body temp_dir (mkWorld r (trace w)) in
            (res, mkWorld (FS.remove k (root w')) (trace w'))
        | None => (inl (OSError "Not a directory"), w)
        end
    | Some (Dir _), Some _ => (inl (OSError "File exists"), w)
    | Some (File _), _ => (inl (OSError "Not a directory"), w)
    | None, _ => (inl (FileNotFoundError temp_dir), w)
    end.

(** The command of step 1 (lines 107-120). *)
Definition clone_cmd (clone_url : string) (repo_path : PurePath.t)
    (git_ref : string) (ref_type : RefType) : list string :=
  let clone_cmd :=
    ["git"; "clone"; "--no-checkout"; "--filter=blob:none";
     clone_url; PurePath.str repo_path] in
  if negb (RefType_eqb ref_type Commit) then
    let clone_cmd := PyStr.insert (-2) "--depth" clone_cmd in
    let clone_cmd := PyStr.insert (-2) "1" clone_cmd in
    let clone_cmd := PyStr.insert (-2) "--branch" clone_cmd in
    let clone_cmd := PyStr.insert (-2) git_ref clone_cmd in
    clone_cmd
  else clone_cmd.

Definition cat_file_cmd (repo_path : PurePath.t) (git_ref : string) : list string :=
  ["git"; "-C"; PurePath.str repo_path; "cat-file"; "-e"; git_ref].

Definition unshallow_cmd (repo_path : PurePath.t) : list string :=
  ["git"; "-C"; PurePath.str repo_path; "fetch"; "--unshallow"].

Definition config_cmd (repo_path : PurePath.t) : list string :=
  ["git"; "-C"; PurePath.str repo_path;
   "config"; "--local"; "core.sparseCheckout"; "true"].

Definition checkout_cmd (repo_path : PurePath.t) (git_ref : string) : list string :=
  ["git"; "-C"; PurePath.str repo_path; "checkout"; git_ref].

(** Step 1: the clone (lines 104-123). *)
Definition step1_clone (r : Reference) (clone_url : string)
    (repo_path : PurePath.t) : M unit :=
  subprocess_run (clone_cmd clone_url repo_path (git_ref r) (ref_type r)).

(** Step 1b: for a commit, look for it and fetch the whole history when
    it is missing (lines 125-142). *)
Definition step1b_fetch_commit (r : Reference) (repo_path : PurePath.t) : M unit :=
  if RefType_eqb (ref_type r) Commit then
    try_except
      (subprocess_run (cat_file_cmd repo_path (git_ref r)))
      (fun e => match e with
                | CalledProcessError _ => Some (subprocess_run (unshallow_cmd repo_path))
                | _ => None
                end)
  else mret tt.

Definition newline : string := String "010"%char EmptyString.

Definition sparse_patterns (folder_path : string) : list string :=
  if negb (String.eqb folder_path "")
  then [folder_path; (folder_path ++ "/**")%string]
  else ["*"].

(** Step 2: sparse-checkout, switched on for this clone only, and its
    pattern file (lines 144-171). *)
Definition step2_sparse (r : Reference) (repo_path : PurePath.t) : M unit :=
  subprocess_run (config_cmd repo_path) ;;
  let sparse_file := repo_path // ".git" // "info" // "sparse-checkout" in
  let patterns := sparse_patterns (folder_path r) in
  write_text sparse_file
    (String.concat "" (List.map (fun pattern : string => (pattern ++ newline)%string) patterns)).

(** Step 3: the checkout (lines 173-179). *)
Definition step3_checkout (r : Reference) (repo_path : PurePath.t) : M unit :=
  subprocess_run (checkout_cmd repo_path (git_ref r)).

(** The name of the destination below [output_dir] (lines 188-195 for a
    folder, lines 212-217 for the whole repository). *)
Definition target_name (r : Reference) : string :=
  if negb (String.eqb (folder_path r) "") then
    let folder_name := PurePath.name (PurePath.of_str (folder_path r)) in
    if RefType_eqb (ref_type r) Commit then
      folder_name ++ "_" ++ PyStr.take 8 (git_ref r)
    else if RefType_eqb (ref_type r) Tag then
      folder_name ++ "_" ++ PyStr.replace "/" "_" (git_ref r)
    else
      if negb (String.eqb (git_ref r) "main")
      then folder_name ++ "_" ++ git_ref r else folder_name
  else
    if RefType_eqb (ref_type r) Commit then
      repo r ++ "_" ++ PyStr.take 8 (git_ref r)
    else if RefType_eqb (ref_type r) Tag then
      repo r ++ "_" ++ PyStr.replace "/" "_" (git_ref r)
    else
      if negb (String.eqb (git_ref r) "main")
      then repo r ++ "_" ++ git_ref r else repo r.

(** [repo_path.iterdir()] yields [repo_path] extended by the entry's name
    as it stands. *)
Definition child (p : PurePath.t) (name : string) : PurePath.t :=
  {| PurePath.anchored := PurePath.anchored p;
     PurePath.parts := PurePath.parts p ++ [name] |}.

(** The loop of lines 233-238 over the entries of the clone. *)
Fixpoint copy_items (repo_path target_path : PurePath.t) (names : list string)
    : M unit :=
  match names with
  | [] => mret tt
  | name :: names' =>
      let item := child repo_path name in
      (if negb (String.eqb (PurePath.name item) ".git") then
         d ← Path_is_dir item;
         if d : bool then shutil_copytree item (target_path // PurePath.name item)
         else shutil_copy2 item (target_path // PurePath.name item)
       else mret tt) ;;
      copy_items repo_path target_path names'
  end.

Definition folder_not_found (r : Reference) : string :=
  "Folder '" ++ folder_path r ++ "' not found in "
    ++ RefType_str (ref_type r) ++ " '" ++ git_ref r ++ "'".

(** Step 4: the copy to the destination (lines 181-240). *)
Definition step4_copy (self : GitHubFolderDownloader) (r : Reference)
    (repo_path : PurePath.t) : M unit :=
  if negb (String.eqb (folder_path r) "") then
    let source_folder := repo_path // folder_path r in
    found ← Path_exists source_folder;
    if negb found then raise (FileNotFoundError (folder_not_found r))
    else
      let target_path := output_dir self // target_name r in
      there ← Path_exists target_path;
      (if there : bool then shutil_rmtree target_path else mret tt) ;;
      shutil_copytree source_folder target_path
  else
    let target_path := output_dir self // target_name r in
    there ← Path_exists target_path;
    (if there : bool then shutil_rmtree target_path else mret tt) ;;
    Path_mkdir target_path ;;
    names ← Path_iterdir repo_path;
    copy_items repo_path target_path names.

(** The body of the [try] (lines 104-252). *)
Definition steps (self : GitHubFolderDownloader) (r : Reference)
    (clone_url : string) (repo_path : PurePath.t) : M (bool * Report) :=
  step1_clone r clone_url repo_path ;;
  step1b_fetch_commit r repo_path ;;
  step2_sparse r repo_path ;;
  step3_checkout r repo_path ;;
  step4_copy self r repo_path ;;
  mret (true, DownloadCompleted).

(** The three [except] clauses (lines 254-269). *)
Definition handlers (e : exn) : option (M (bool * Report)) :=
  match e with
  | CalledProcessError cmd => Some (mret (false, GitCommandFailed cmd))
  | FileNotFoundError msg => Some (mret (false, NotFound msg))
  | _ => Some (mret (false, UnexpectedError e))
  end.

(** Lines 79-269. *)
Definition download_with_sparse_checkout (self : GitHubFolderDownloader)
    : M (bool * Report) :=
  match parse_github_url (urlparse_path env) self with
  | inl e => raise e
  | inr r =>
      let clone_url :=
        ("https://github.com/" ++ owner r ++ "/" ++ repo r ++ ".git")%string in
      with_TemporaryDirectory (fun temp_dir =>
        let temp_path := PurePath.of_str temp_dir in
        let repo_path := temp_path // repo r in
        try_except (steps self r clone_url repo_path) handlers)
  end.

End Run.

(* ===================================================================== *)
(** ** Concrete collaborators, for running the model *)
(* ===================================================================== *)

Module Stub.

(** [s[:s.find(c)]], the whole of [s] when [c] is not in it. *)
Fixpoint before (c : ascii) (s : string) : string :=
  match s with
  | EmptyString => EmptyString
  | String a s' => if Ascii.eqb a c then EmptyString else String a (before c s')
  end.

(** [s[s.find(c)+1:]], empty when [c] is not in [s]. *)
Fixpoint after (c : ascii) (s : string) : string :=
  match s with
  | EmptyString => EmptyString
  | String a s' => if Ascii.eqb a c then s' else after c s'
  end.

(** The suffix of [s] that starts at its first character from [cs]. *)
Fixpoint from_first (cs : string) (s : string) : string :=
  match s with
  | EmptyString => EmptyString
  | String a s' => if PyStr.char_in a cs then s else from_first cs s'
  end.

Definition is_alpha (c : ascii) : bool :=
  let n := nat_of_ascii c in
  ((65 <=? n)%nat && (n <=? 90)%nat) || ((97 <=? n)%nat && (n <=? 122)%nat).

Definition scheme_chars : string :=
  "abcdefghijklmnopqrstuvwxyzABCDEFGHIJKLMNOPQRSTUVWXYZ0123456789+-.".

Definition uses_params : list string :=
  [""; "ftp"; "hdl"; "prospero"; "http"; "imap"; "https"; "shttp"; "rtsp";
   "rtspu"; "sip"; "sips"; "mms"; "sftp"; "tel"].

(** A leading [scheme:] is split off when it is well formed. *)
Definition split_scheme (url : string) : string * string :=
  let head := before ":" url in
  match url with
  | String a _ =>
      if PyStr.char_in ":" url && is_alpha a
         && PyStr.all (fun c => PyStr.char_in c scheme_chars) head
      then (PyStr.lower head, after ":" url)
      else (EmptyString, url)
  | EmptyString => (EmptyString, url)
  end.

(** The parameters after [';'] in the last segment are split off. *)
Definition split_params (url : string) : string :=
  let segs := PyStr.split "/" url in
  PyStr.join "/" (List.removelast segs ++ [before ";" (List.last segs "")]).

(** [urllib.parse.urlparse(url).path] for the URLs of the scheme
    [scheme://netloc/path;params?query#fragment].  The library also
    strips control characters and checks bracketed hosts in more detail,
    which is left out. *)
Definition urlparse (url : string) : result string :=
  let (scheme, url) := split_scheme url in
  let netloc :=
    if PyStr.startswith "//" url
    then before "/" (before "?" (before "#" (after "/" (after "/" url))))
    else EmptyString in
  let url :=
    if PyStr.startswith "//" url
    then from_first "/?#" (after "/" (after "/" url)) else url in
  if xorb (PyStr.char_in "[" netloc) (PyStr.char_in "]" netloc)
  then inl (ValueError "Invalid IPv6 URL")
  else
    let url := before "?" (before "#" url) in
    inr (if existsb (String.eqb scheme) uses_params && PyStr.char_in ";" url
         then split_params url else url).

(** A [git] for trying the model: [clone] makes the repository directory,
    [checkout] fills it with [worktree], [cat-file] finds the commit when
    [has_commit] says so, and the sub-command named [broken] exits with 1. *)
Definition git (worktree : gmap string node) (has_commit : bool)
    (broken : string) (cmd : list string) (r : node) : ProcResult * node :=
  let arg (i : nat) := List.nth i cmd EmptyString in
  let meta : node := Dir {[ "info" := Dir ∅ ]} in
  let put (dir : string) (n : node) :=
    match FS.store (PurePath.parts (PurePath.of_str dir)) n r with
    | Some r' => (Exited 0, r')
    | None => (Exited 128, r)
    end in
  if String.eqb (arg 1) broken || String.eqb (arg 3) broken then
    (Exited 1, r)
  else if String.eqb (arg 1) "clone" then
    put (List.last cmd EmptyString) (Dir {[ ".git" := meta ]})
  else if String.eqb (arg 3) "cat-file" then
    (Exited (if has_commit then 0 else 1), r)
  else if String.eqb (arg 3) "checkout" then
    put (arg 2) (Dir (<[ ".git" := meta ]> worktree))
  else (Exited 0, r).

(** A file system with [/tmp], [/home/user/Downloads] and [/etc/passwd]. *)
Definition disk : node :=
  Dir {[ "tmp" := Dir ∅;
         "home" := Dir {[ "user" := Dir {[ "Downloads" := Dir ∅ ]} ]};
         "etc" := Dir {[ "passwd" := File "root:x:0:0" ]} ]}.

(** A working tree with [README.md] and [src/main.py]. *)
Definition worktree : gmap string node :=
  {[ "README.md" := File "hello";
     "src" := Dir {[ "main.py" := File "pass" ]} ]}.

Definition env (temp_dir : string) (has_commit : bool) (broken : string)
    : Collaborators :=
  {| urlparse_path := urlparse;
     process := git worktree has_commit broken;
     mkdtemp_name := temp_dir;
     cwd := ["home"; "user"] |}.

Definition boot : World := mkWorld disk [].

Definition downloads : PurePath.t := PurePath.of_str "/home/user/Downloads".

End Stub.

(* ===================================================================== *)
(** ** The words of the specification *)
(* ===================================================================== *)

(** A hexadecimal digit, in either case. *)
Definition hex_char (c : ascii) : Prop :=
  In c (list_ascii_of_string "0123456789abcdefABCDEF").

(** Exactly 40 hexadecimal characters. *)
Definition forty_hex (s : string) : Prop :=
  String.length s = 40 /\ Forall hex_char (list_ascii_of_string s).

Definition contains_dot (s : string) : Prop :=
  In "."%char (list_ascii_of_string s).

Definition starts_with_v (s : string) : Prop :=
  exists t, s = String "v" t.

Definition is_empty (s : string) : bool := String.eqb s "".
Definition nonempty_segments (path : string) : list string :=
  List.filter (fun s => negb (is_empty s)) (PyStr.split "/" path).
Definition no_slash (s : string) : Prop := PyStr.char_in "/" s = false.

Definition base_name (r : Reference) : string :=
  if String.eqb (folder_path r) ""
  then repo r
  else PurePath.name (PurePath.of_str (folder_path r)).

Definition revision_suffix (r : Reference) : string :=
  match ref_type r with
  | Commit => "_" ++ PyStr.take 8 (git_ref r)
  | Tag => "_" ++ PyStr.replace "/" "_" (git_ref r)
  | Branch => if String.eqb (git_ref r) "main" then "" else "_" ++ git_ref r
  end.

(** The exception [subprocess.run] raises for a result, if any. *)
Definition raised_by (cmd : list string) (p : ProcResult) : option exn :=
  match p with
  | Exited rc => if (rc =? 0)%Z then None else Some (CalledProcessError cmd)
  | NoSuchProgram msg => Some (FileNotFoundError msg)
  | LaunchFailed msg => Some (OSError msg)
  end.

(** A computation that runs no process. *)
Definition quiet {A} (m : M A) : Prop := forall w, trace (m w).2 = trace w.

(** What follows the clone and the optional fetch: the configuration, then
    the checkout. *)
Definition tail_shape (r : Reference) (rp : PurePath.t)
    (t : list (list string * ProcResult)) : Prop :=
  (exists p, t = [(config_cmd rp, p)]) \/
  (exists p, t = [(config_cmd rp, Exited 0); (checkout_cmd rp (git_ref r), p)]).

(** The commands one run can leave in the trace. *)
Definition run_shape (r : Reference) (url : string) (rp : PurePath.t)
    (new : list (list string * ProcResult)) : Prop :=
  let clone := clone_cmd url rp (git_ref r) (ref_type r) in
  let cat := cat_file_cmd rp (git_ref r) in
  (exists p, p <> Exited 0 /\ new = [(clone, p)]) \/
  (ref_type r <> Commit /\
   exists t, tail_shape r rp t /\ new = (clone, Exited 0) :: t) \/
  (ref_type r = Commit /\
   ((exists p, (forall rc, p <> Exited rc) /\
               new = [(clone, Exited 0); (cat, p)]) \/
    (exists t, tail_shape r rp t /\
               new = (clone, Exited 0) :: (cat, Exited 0) :: t) \/
    (exists rc p, rc <> 0%Z /\
                  new = [(clone, Exited 0); (cat, Exited rc); (unshallow_cmd rp, p)]) \/
    (exists rc t, rc <> 0%Z /\ tail_shape r rp t /\
                  new = (clone, Exited 0) :: (cat, Exited rc)
                          :: (unshallow_cmd rp, Exited 0) :: t))).

(** What tells the commands of a run apart: the word after [git], and the
    sub-command after [-C <dir>]. *)
Definition verb (cmd : list string) : string * string :=
  (nth 1 cmd "", nth 3 cmd "").

(** The scratch workspace, the clone in it, the folder step 4 copies and
    the destination of a run, as places in the file system. *)
Definition workspace (env : Collaborators) : FS.key :=
  key env (PurePath.of_str (mkdtemp_name env)).

Definition clone_dir (env : Collaborators) (r : Reference) : PurePath.t :=
  PurePath.of_str (mkdtemp_name env) // repo r.

Definition clone_url_of (r : Reference) : string :=
  "https://github.com/" ++ owner r ++ "/" ++ repo r ++ ".git".

Definition source (env : Collaborators) (r : Reference) : FS.key :=
  if String.eqb (folder_path r) ""
  then key env (clone_dir env r)
  else key env (clone_dir env r // folder_path r).

Definition destination (env : Collaborators) (self : GitHubFolderDownloader)
    (r : Reference) : FS.key :=
  key env (output_dir self // target_name r).

(** Steps 1 to 3: all that is done with [git]. *)
Definition checkout_stage (env : Collaborators) (r : Reference) : M unit :=
  step1_clone env r (clone_url_of r) (clone_dir env r) ;;
  step1b_fetch_commit env r (clone_dir env r) ;;
  step2_sparse env r (clone_dir env r) ;;
  step3_checkout env r (clone_dir env r).

(** The world once [TemporaryDirectory] has made the workspace. *)
Definition workspace_made (env : Collaborators) (w : World) : option World :=
  match FS.lookup (FS.parent (workspace env)) (root w),
        FS.lookup (workspace env) (root w) with
  | Some (Dir _), None =>
      match FS.store (workspace env) (Dir ∅) (root w) with
      | Some r0 => Some (mkWorld r0 (trace w))
      | None => None
      end
  | _, _ => None
  end.

(** The world when step 4 starts, if the run gets that far. *)
Definition checked_out (env : Collaborators) (r : Reference) (w : World)
    : option World :=
  match workspace_made env w with
  | Some w0 =>
      match checkout_stage env r w0 with
      | (inr _, wm) => Some wm
      | (inl _, _) => None
      end
  | None => None
  end.

(** What the checkout has put where step 4 reads: the requested folder,
    or the whole clone without its [.git]. *)
Definition materialised (env : Collaborators) (r : Reference) (w : World)
    : option node :=
  match checked_out env r w with
  | Some wm =>
      match FS.lookup (source env r) (root wm) with
      | Some (Dir es) =>
          Some (Dir (if String.eqb (folder_path r) "" then delete ".git" es else es))
      | _ => None
      end
  | None => None
  end.

(** The destination lies neither in nor around the workspace, nor the
    folder that is copied. *)
Definition well_separated (env : Collaborators) (self : GitHubFolderDownloader)
    (r : Reference) : Prop :=
  ~ FS.comparable (workspace env) (destination env self r) /\
  ~ FS.comparable (source env r) (destination env self r).

(** A proper file name: not empty, not a dot, without a slash. *)
Definition valid_name (n : string) : bool :=
  negb (String.eqb n "") && negb (String.eqb n ".") && negb (PyStr.char_in "/" n).

(** The names right below a directory are proper file names. *)
Definition proper_names (n : option node) : bool :=
  match n with
  | Some (Dir es) => forallb valid_name (map_to_list es).*1
  | _ => true
  end.

(** What the loop of step 4 adds to the destination [acc] from the
    entries [es] of the clone. *)
Fixpoint placed (es acc : gmap string node) (names : list string)
    : gmap string node :=
  match names with
  | [] => acc
  | c :: names' =>
      placed es
        (if String.eqb c ".git" then acc
         else match es !! c with
              | Some x => <[c := x]> acc
              | None => acc
              end)
        names'
  end.

(* ===================================================================== *)
(** ** The rest of the program: [check_git_available], [download], [main] *)
(* ===================================================================== *)

(** [sub in s] *)
Fixpoint str_contains (sub s : string) : bool :=
  String.prefix sub s
  || match s with
     | EmptyString => false
     | String _ s' => str_contains sub s'
     end.

(** Lines 67-77: [git --version] tells whether git is there; only a
    non-zero exit and a missing program are caught. *)
Definition check_git_available (env : Collaborators) : M bool :=
  try_except
    (subprocess_run env ["git"; "--version"] ;; mret true)
    (fun e => match e with
              | CalledProcessError _ | FileNotFoundError _ => Some (mret false)
              | _ => None
              end).

(** Lines 271-280. *)
Definition download (env : Collaborators) (self : GitHubFolderDownloader)
    : M bool :=
  available ← check_git_available env;
  if negb available then mret false
  else
    Path_mkdir env (output_dir self) ;;
    res ← download_with_sparse_checkout env self;
    mret res.1.

(** What [parser.parse_args()] does with the command line (line 338):
    [argparse] ends the program itself, with 2 after a usage error and
    with 0 after [-h], or it returns the two arguments.  [output] is the
    value of [Path(args.output).expanduser()], as for [init]. *)
Inductive Parsed : Type :=
  | SystemExit (code : Z)
  | Namespace (url : string) (output : PurePath.t).

(** Lines 338-357: the exit code.  [args] is the outcome of
    [parser.parse_args()], which is outside the [try]; a keyboard
    interrupt is not modelled. *)
Definition main (env : Collaborators) (args : Parsed) : World -> Z * World :=
  fun w =>
    match args with
    | SystemExit code => (code, w)
    | Namespace url output =>
        if negb (str_contains "github.com" url) then (1%Z, w)
        else
          match download env (init url output) w with
          | (inr success, w') => (if success : bool then 0%Z else 1%Z, w')
          | (inl _, w') => (1%Z, w')
          end
    end.

(* ===================================================================== *)
(** ** More words for stating properties *)
(* ===================================================================== *)

(** [n] slashes. *)
Fixpoint slashes (n : nat) : string :=
  match n with
  | O => EmptyString
  | S n' => String "/" (slashes n')
  end.

(** The five commands of the program, for the clone of [r] in [rp]. *)
Definition known_command (r : Reference) (url : string) (rp : PurePath.t)
    (cmd : list string) : Prop :=
  cmd = clone_cmd url rp (git_ref r) (ref_type r) \/
  cmd = cat_file_cmd rp (git_ref r) \/
  cmd = unshallow_cmd rp \/
  cmd = config_cmd rp \/
  cmd = checkout_cmd rp (git_ref r).


(** A failed step that is the end of the run: every entry before the
    last exited with 0, the probe for the commit apart. *)
Definition stops_at_failure (r : Reference) (rp : PurePath.t)
    (new : list (list string * ProcResult)) : Prop :=
  Forall (fun entry =>
            entry.2 = Exited 0 \/
            (entry.1 = cat_file_cmd rp (git_ref r) /\
             exists rc, entry.2 = Exited rc))
         (List.removelast new).

(** A computation whose [CalledProcessError] names the command it ran
    last, which exited with a non-zero code. *)
Definition names_failed_command {A} (m : M A) : Prop :=
  forall w,
    exists new,
      trace (m w).2 = trace w ++ new /\
      forall cmd, (m w).1 = inl (CalledProcessError cmd) ->
        exists pre rc, new = pre ++ [(cmd, Exited rc)] /\ rc <> 0%Z.

(** The content of the pattern file of step 2. *)
Definition sparse_file_content (folder_path : string) : string :=
  if String.eqb folder_path "" then "*" ++ newline
  else folder_path ++ newline ++ folder_path ++ "/**" ++ newline.

(** The world in which [download] starts the sparse checkout: after the
    version check and the creation of the output directory. *)
Definition prepared (env : Collaborators) (self : GitHubFolderDownloader)
    (w : World) : World :=
  (Path_mkdir env (output_dir self) (check_git_available env w).2).2.

(** A key is a place in the tree, and its components are names: a [..]
    in a path is not resolved to the parent.  What is stated about places
    untouched or about a destination's place is therefore for keys
    without [..]. *)
Definition resolved (k : FS.key) : bool :=
  forallb (fun c => negb (String.eqb c "..")) k.

(** A computation that leaves the entry at [q] as it finds it. *)
Definition leaves {A} (q : FS.key) (m : M A) : Prop :=
  forall w, FS.lookup q (root (m w).2) = FS.lookup q (root w).

(* ===================================================================== *)
(** ** Strings: basic facts *)
(* ===================================================================== *)

Lemma char_in_In (c : ascii) (s : string) :
  PyStr.char_in c s = true <-> In c (list_ascii_of_string s).
Proof.
  induction s as [|a s IH]; simpl.
  - split; [discriminate | tauto].
  - rewrite orb_true_iff, IH, Ascii.eqb_eq. tauto.
Qed.

Lemma all_Forall (p : ascii -> bool) (s : string) :
  PyStr.all p s = true <-> Forall (fun c => p c = true) (list_ascii_of_string s).
Proof.
  induction s as [|a s IH]; simpl.
  - split; [constructor | reflexivity].
  - rewrite andb_true_iff, IH. split.
    + intros [Ha Hs]. constructor; assumption.
    + intros H. inversion H; subst. split; assumption.
Qed.

Lemma all_lower (p : ascii -> bool) (s : string) :
  PyStr.all p (PyStr.lower s) = PyStr.all (fun c => p (PyStr.lower_char c)) s.
Proof.
  induction s as [|a s IH]; simpl; [reflexivity | now rewrite IH].
Qed.

(** Lower-casing maps exactly the 22 hexadecimal digits into
    ['0123456789abcdef']. *)
Lemma lower_char_hex (c : ascii) :
  PyStr.char_in (PyStr.lower_char c) "0123456789abcdef"
  = PyStr.char_in c "0123456789abcdefABCDEF".
Proof.
  destruct c as [[] [] [] [] [] [] [] []]; vm_compute; reflexivity.
Qed.

Lemma prefix_empty (s : string) : String.prefix "" s = true.
Proof. destruct s; reflexivity. Qed.

Lemma startswith_v (s : string) :
  PyStr.startswith "v" s = true <-> starts_with_v s.
Proof.
  unfold PyStr.startswith, starts_with_v. destruct s as [|a s].
  - split; [discriminate | intros [t Ht]; discriminate].
  - change (String.prefix "v" (String a s))
      with (if ascii_dec "v" a then String.prefix "" s else false).
    destruct (ascii_dec "v" a) as [<-|Hne].
    + rewrite prefix_empty. split; [intros _; now exists s | reflexivity].
    + split; [discriminate | intros [t Ht]; injection Ht as Ha _; congruence].
Qed.

(** The test of line 45 is the specification's "40 hexadecimal
    characters, in either case". *)
Lemma commit_test_spec (s : string) :
  (String.length s =? 40)%nat
  && PyStr.all (fun c => PyStr.char_in c "0123456789abcdef") (PyStr.lower s) = true
  <-> forty_hex s.
Proof.
  unfold forty_hex. rewrite andb_true_iff, Nat.eqb_eq, all_lower, all_Forall.
  apply and_iff_compat_l. split; intros H; eapply Forall_impl; try exact H.
  - intros c Hc. apply char_in_In. now rewrite <- lower_char_hex.
  - intros c Hc. rewrite lower_char_hex. now apply char_in_In.
Qed.

Lemma tag_test_spec (s : string) :
  PyStr.char_in "." s || PyStr.startswith "v" s = true
  <-> contains_dot s \/ starts_with_v s.
Proof.
  now rewrite orb_true_iff, char_in_In, startswith_v.
Qed.

Lemma classify_spec (s : string) :
  (classify s = Commit <-> forty_hex s) /\
  (classify s = Tag <-> ~ forty_hex s /\ (contains_dot s \/ starts_with_v s)) /\
  (classify s = Branch <-> ~ forty_hex s /\ ~ (contains_dot s \/ starts_with_v s)).
Proof.
  unfold classify.
  pose proof (commit_test_spec s) as Hc. pose proof (tag_test_spec s) as Ht.
  destruct ((String.length s =? 40)%nat && _) eqn:Ec;
    [|destruct (PyStr.char_in "." s || PyStr.startswith "v" s) eqn:Et].
  - assert (forty_hex s) by now apply Hc.
    intuition congruence.
  - assert (~ forty_hex s) by (intros F; apply Hc in F; discriminate).
    assert (contains_dot s \/ starts_with_v s) by now apply Ht.
    intuition congruence.
  - assert (~ forty_hex s) by (intros F; apply Hc in F; discriminate).
    assert (~ (contains_dot s \/ starts_with_v s))
      by (intros F; apply Ht in F; discriminate).
    intuition congruence.
Qed.

(** Both branches of the parser, and its defaults, classify the revision
    by the same test. *)
Lemma parse_path_parts_classify (path_parts : list string) (r : Reference) :
  parse_path_parts path_parts = inr r -> ref_type r = classify (git_ref r).
Proof.
  unfold parse_path_parts.
  repeat match goal with
         | |- context [if ?b then _ else _] => destruct b eqn:?
         end;
    intros H; try discriminate; injection H as <-; cbn [git_ref ref_type];
    try reflexivity; unfold classify;
    repeat match goal with
           | E : ?b = _ |- context [?b] => rewrite E
           end; reflexivity.
Qed.

Lemma parse_github_url_inv (up : string -> result string)
    (self : GitHubFolderDownloader) (r : Reference) :
  parse_github_url up self = inr r ->
  exists path, up (github_url self) = inr path
               /\ parse_path_parts (path_parts_of path) = inr r.
Proof.
  unfold parse_github_url. destruct (up (github_url self)) as [e|path];
    [discriminate | eauto].
Qed.

(** C1. Every revision string gets exactly one kind: Commit exactly when
    it is 40 hexadecimal characters in either case, otherwise Tag exactly
    when it contains a dot or starts with [v], otherwise Branch; and the
    kind of every parsed reference is the kind of its revision. *)
Theorem C1_revision_kind :
  (forall s : string,
      (classify s = Commit <-> forty_hex s) /\
      (classify s = Tag <->
         ~ forty_hex s /\ (contains_dot s \/ starts_with_v s)) /\
      (classify s = Branch <->
         ~ forty_hex s /\ ~ (contains_dot s \/ starts_with_v s))) /\
  (forall (up : string -> result string) (self : GitHubFolderDownloader)
          (r : Reference),
      parse_github_url up self = inr r -> ref_type r = classify (git_ref r)).
Proof.
  split.
  - exact classify_spec.
  - intros up self r H. apply parse_github_url_inv in H as (path & _ & H).
    now apply parse_path_parts_classify in H.
Qed.

(** ** Splitting and stripping *)

Lemma split_not_nil (c : ascii) (s : string) : PyStr.split c s <> [].
Proof.
  induction s as [|a s IH]; cbn; [discriminate|].
  destruct (Ascii.eqb a c); [discriminate|].
  destruct (PyStr.split c s); discriminate.
Qed.

Lemma split_cons (c a : ascii) (s : string) :
  PyStr.split c (String a s) =
  if Ascii.eqb a c then EmptyString :: PyStr.split c s
  else String a (hd EmptyString (PyStr.split c s)) :: tl (PyStr.split c s).
Proof.
  cbn. destruct (Ascii.eqb a c); [reflexivity|].
  pose proof (split_not_nil c s). destruct (PyStr.split c s); [congruence|reflexivity].
Qed.

Lemma split_lstrip (c : ascii) (s : string) :
  exists n, PyStr.split c s = repeat EmptyString n ++ PyStr.split c (PyStr.lstrip c s).
Proof.
  induction s as [|a s [n IH]]; [now exists 0|].
  cbn [PyStr.lstrip]. rewrite split_cons.
  destruct (Ascii.eqb a c) eqn:E.
  - exists (S n). cbn. now rewrite IH.
  - exists 0. cbn [repeat app]. now rewrite split_cons, E.
Qed.

Lemma split_rstrip (c : ascii) (s : string) :
  exists n, PyStr.split c s = PyStr.split c (PyStr.rstrip c s) ++ repeat EmptyString n.
Proof.
  induction s as [|a s [n IH]]; [now exists 0|].
  cbn [PyStr.rstrip]. rewrite split_cons, IH.
  destruct (PyStr.rstrip c s) as [|b t] eqn:Er.
  - destruct (Ascii.eqb a c) eqn:E.
    + exists (S n). reflexivity.
    + exists n. cbn. now rewrite E.
  - exists n. rewrite (split_cons c a (String b t)).
    destruct (Ascii.eqb a c); [reflexivity|].
    pose proof (split_not_nil c (String b t)) as Hne.
    destruct (PyStr.split c (String b t)); [congruence|reflexivity].
Qed.

Lemma filter_repeat_empty (n : nat) :
  List.filter (fun s => negb (is_empty s)) (repeat EmptyString n) = [].
Proof. induction n; [reflexivity | assumption]. Qed.

(** Stripping the slashes only drops empty segments. *)
Lemma nonempty_segments_strip (path : string) :
  List.filter (fun s => negb (is_empty s)) (path_parts_of path)
  = nonempty_segments path.
Proof.
  unfold nonempty_segments, path_parts_of, PyStr.strip.
  destruct (split_lstrip "/" path) as [n ->].
  destruct (split_rstrip "/" (PyStr.lstrip "/" path)) as [m ->].
  rewrite !List.filter_app, !filter_repeat_empty, app_nil_r. reflexivity.
Qed.

Lemma lstrip_head (c a : ascii) (s t : string) :
  PyStr.lstrip c s = String a t -> a <> c.
Proof.
  induction s as [|b s IH]; cbn; [discriminate|].
  destruct (Ascii.eqb b c) eqn:E; [assumption|].
  intros H. injection H as -> _. now apply Ascii.eqb_neq.
Qed.

Lemma rstrip_head (c a b : ascii) (s t : string) :
  PyStr.rstrip c (String a s) = String b t -> b = a.
Proof.
  cbn. destruct (PyStr.rstrip c s); [destruct (Ascii.eqb a c)|]; congruence.
Qed.

Lemma strip_head (c a : ascii) (s t : string) :
  PyStr.strip c s = String a t -> a <> c.
Proof.
  unfold PyStr.strip. destruct (PyStr.lstrip c s) as [|b u] eqn:E; [discriminate|].
  intros H. apply rstrip_head in H as ->. eapply lstrip_head, E.
Qed.

Lemma rstrip_last (c : ascii) (s : string) :
  PyStr.rstrip c s <> EmptyString ->
  List.last (PyStr.split c (PyStr.rstrip c s)) EmptyString <> EmptyString.
Proof.
  induction s as [|a s IH]; cbn [PyStr.rstrip]; [congruence|].
  destruct (PyStr.rstrip c s) as [|b t] eqn:Er.
  - destruct (Ascii.eqb a c) eqn:E; [congruence|]. intros _. cbn. now rewrite E.
  - intros _. specialize (IH ltac:(discriminate)).
    rewrite (split_cons c a (String b t)).
    pose proof (split_not_nil c (String b t)) as Hne.
    destruct (PyStr.split c (String b t)) as [|seg segs]; [congruence|].
    destruct (Ascii.eqb a c); [exact IH|].
    cbn [hd tl]. destruct segs; [discriminate | exact IH].
Qed.

(** With two segments or more, the first and the last are not empty. *)
Lemma path_parts_ends (path : string) :
  2 <= length (path_parts_of path) ->
  hd EmptyString (path_parts_of path) <> EmptyString
  /\ List.last (path_parts_of path) EmptyString <> EmptyString.
Proof.
  unfold path_parts_of. intros Hlen.
  destruct (PyStr.strip "/" path) as [|a t] eqn:Es; [cbn in Hlen; lia|].
  split.
  - rewrite split_cons. apply strip_head in Es.
    apply Ascii.eqb_neq in Es. rewrite Es. discriminate.
  - rewrite <- Es. unfold PyStr.strip in *. apply rstrip_last. congruence.
Qed.

Lemma filter_last_nonempty (l : list string) :
  List.last l EmptyString <> EmptyString ->
  List.filter (fun s => negb (is_empty s)) l <> [].
Proof.
  induction l as [|x l IH]; [cbn; congruence|].
  destruct l as [|y l].
  - cbn. intros H. unfold is_empty. apply String.eqb_neq in H. now rewrite H.
  - intros H. cbn [List.filter]. destruct (negb (is_empty x)); [discriminate|].
    apply IH. exact H.
Qed.

(** The count of segments falls below two exactly when the count of
    non-empty segments does. *)
Lemma few_parts_iff (path : string) :
  length (path_parts_of path) < 2 <-> length (nonempty_segments path) < 2.
Proof.
  rewrite <- nonempty_segments_strip. split.
  - intros H. pose proof (List.filter_length_le (fun s => negb (is_empty s)) (path_parts_of path)). lia.
  - intros H. destruct (Nat.lt_ge_cases (length (path_parts_of path)) 2) as [|Hge]; [assumption|].
    exfalso. destruct (path_parts_ends path Hge) as [Hh Hl].
    destruct (path_parts_of path) as [|x l]; [cbn in Hge; lia|].
    cbn [hd] in Hh. cbn [List.filter] in H.
    apply String.eqb_neq in Hh. unfold is_empty in H at 1. rewrite Hh in H. cbn in H.
    destruct l as [|y l]; [cbn in Hge; lia|].
    apply (filter_last_nonempty (y :: l)) in Hl.
    destruct (List.filter _ (y :: l)); [congruence | cbn in H; lia].
Qed.

Lemma append_nil_l (s : string) : ("" ++ s)%string = s.
Proof. reflexivity. Qed.

Lemma append_cons (a : ascii) (s t : string) :
  (String a s ++ t)%string = String a (s ++ t).
Proof. reflexivity. Qed.

Lemma join_cons (sep x y : string) (l : list string) :
  PyStr.join sep (x :: y :: l) = (x ++ sep ++ PyStr.join sep (y :: l))%string.
Proof. reflexivity. Qed.

Lemma split_no_sep (c : ascii) (s : string) :
  PyStr.char_in c s = false -> PyStr.split c s = [s].
Proof.
  induction s as [|a s IH]; [reflexivity|].
  cbn [PyStr.char_in]. intros H. apply orb_false_iff in H as [Ha Hs].
  rewrite split_cons, Ha, (IH Hs). reflexivity.
Qed.

Lemma split_app (c : ascii) (s t : string) :
  PyStr.char_in c s = false ->
  PyStr.split c (s ++ String c t) = s :: PyStr.split c t.
Proof.
  induction s as [|a s IH].
  - intros _. now rewrite append_nil_l, split_cons, Ascii.eqb_refl.
  - cbn [PyStr.char_in]. rewrite append_cons. intros H. apply orb_false_iff in H as [Ha Hs].
    rewrite split_cons, Ha, (IH Hs). reflexivity.
Qed.

Lemma split_join (c : ascii) (segs : list string) :
  segs <> [] -> Forall (fun s => PyStr.char_in c s = false) segs ->
  PyStr.split c (PyStr.join (String c EmptyString) segs) = segs.
Proof.
  induction segs as [|x segs IH]; [congruence|]. intros _ H.
  inversion H as [|? ? Hx Hs]; subst.
  destruct segs as [|y segs]; [now apply split_no_sep|].
  rewrite join_cons, append_cons, append_nil_l.
  rewrite (split_app _ _ _ Hx). f_equal. now apply IH.
Qed.

Lemma rstrip_no_sep (c : ascii) (s : string) :
  PyStr.char_in c s = false -> PyStr.rstrip c s = s.
Proof.
  induction s as [|a s IH]; [reflexivity|].
  cbn [PyStr.char_in PyStr.rstrip]. intros H. apply orb_false_iff in H as [Ha Hs].
  rewrite (IH Hs), Ha. now destruct s.
Qed.

Lemma rstrip_app (c : ascii) (x y : string) :
  PyStr.rstrip c y <> EmptyString ->
  PyStr.rstrip c (x ++ y) = (x ++ PyStr.rstrip c y)%string.
Proof.
  intros Hy. induction x as [|a x IH]; [reflexivity|].
  rewrite !append_cons. cbn [PyStr.rstrip]. rewrite IH.
  destruct (x ++ PyStr.rstrip c y)%string eqn:E; [|reflexivity].
  destruct x; [rewrite append_nil_l in E; congruence | discriminate].
Qed.

Lemma rstrip_join (c : ascii) (segs : list string) :
  List.last segs EmptyString <> EmptyString ->
  Forall (fun s => PyStr.char_in c s = false) segs ->
  PyStr.rstrip c (PyStr.join (String c EmptyString) segs)
  = PyStr.join (String c EmptyString) segs.
Proof.
  induction segs as [|x segs IH]; [reflexivity|]. intros Hl H.
  inversion H as [|? ? Hx Hs]; subst.
  destruct segs as [|y segs]; [now apply rstrip_no_sep|].
  specialize (IH Hl Hs).
  assert (PyStr.join (String c "") (y :: segs) <> "") as HJ.
  { clear -Hl. revert y Hl. induction segs as [|z segs IH]; intros y Hl.
    - exact Hl.
    - rewrite join_cons. destruct y; [|discriminate].
      rewrite append_nil_l, append_cons. discriminate. }
  rewrite join_cons.
  assert (PyStr.rstrip c (String c "" ++ PyStr.join (String c "") (y :: segs))
          = (String c "" ++ PyStr.join (String c "") (y :: segs))%string) as E.
  { rewrite rstrip_app; rewrite IH; [reflexivity | exact HJ]. }
  rewrite rstrip_app; rewrite E; [reflexivity|].
  rewrite append_cons. discriminate.
Qed.

(** The parts of [/s1/s2/.../sn] are [s1; ...; sn] when no [si] holds a
    slash and the first and the last are not empty. *)
Lemma path_parts_of_join (segs : list string) :
  hd EmptyString segs <> EmptyString ->
  List.last segs EmptyString <> EmptyString ->
  Forall no_slash segs ->
  path_parts_of ("/" ++ PyStr.join "/" segs) = segs.
Proof.
  intros Hh Hl Hs. unfold path_parts_of, PyStr.strip.
  assert (PyStr.lstrip "/" ("/" ++ PyStr.join "/" segs) = PyStr.join "/" segs) as ->.
  { rewrite append_cons, append_nil_l. cbn [PyStr.lstrip]. rewrite Ascii.eqb_refl.
    destruct segs as [|x segs]; [reflexivity|]. cbn [hd] in Hh.
    inversion Hs as [|? ? Hx _]; subst.
    destruct x as [|a x]; [congruence|].
    unfold no_slash in Hx. cbn [PyStr.char_in] in Hx. apply orb_false_iff in Hx as [Ha _].
    destruct segs; rewrite ?join_cons; cbn [PyStr.join]; rewrite ?append_cons;
      cbn [PyStr.lstrip]; now rewrite Ha. }
  rewrite rstrip_join by assumption.
  apply split_join; [|assumption]. destruct segs; [cbn in Hh|]; congruence.
Qed.

(** ** The parser *)

Lemma parse_path_parts_error (P : list string) (e : exn) :
  parse_path_parts P = inl e ->
  length P < 2 /\ e = ValueError "Invalid GitHub URL format".
Proof.
  unfold parse_path_parts. destruct (length P <? 2)%nat eqn:E.
  - intros H. injection H as <-. apply Nat.ltb_lt in E. now split.
  - repeat match goal with
           | |- context [if ?b then _ else _] => destruct b
           end; discriminate.
Qed.

Lemma parse_path_parts_few (P : list string) :
  length P < 2 ->
  parse_path_parts P = inl (ValueError "Invalid GitHub URL format").
Proof.
  intros H. unfold parse_path_parts. apply Nat.ltb_lt in H. now rewrite H.
Qed.

Lemma parse_path_parts_owner_repo (P : list string) (r : Reference) :
  parse_path_parts P = inr r ->
  2 <= length P /\ owner r = nth 0 P "" /\ repo r = nth 1 P "".
Proof.
  unfold parse_path_parts. destruct (length P <? 2)%nat eqn:E; [discriminate|].
  apply Nat.ltb_ge in E.
  repeat match goal with
         | |- context [if ?b then _ else _] => destruct b
         end; intros H; injection H as <-; auto.
Qed.

(** The [tree] and the [blob] branch of the parser. *)
Lemma parse_path_parts_ref (o rp kw ref : string) (rest : list string) :
  kw = "tree" \/ kw = "blob" ->
  parse_path_parts (o :: rp :: kw :: ref :: rest)
  = inr (mkReference o rp ref (classify ref) (PyStr.join "/" rest)).
Proof.
  intros [-> | ->]; destruct rest; reflexivity.
Qed.

(** Everything else falls back to the defaults. *)
Lemma parse_path_parts_default (P : list string) :
  2 <= length P ->
  (nth 2 P "" <> "tree" /\ nth 2 P "" <> "blob") \/ length P <= 3 ->
  parse_path_parts P
  = inr (mkReference (nth 0 P "") (nth 1 P "") "main" Branch "").
Proof.
  intros Hlen Hcase. unfold parse_path_parts.
  destruct (length P <? 2)%nat eqn:E; [apply Nat.ltb_lt in E; lia|].
  destruct (2 <? length P)%nat; [|reflexivity].
  assert ((nth 2 P "" =? "tree") && (3 <? length P)%nat = false) as ->.
  { apply andb_false_iff. destruct Hcase as [[Ht _]|Hl].
    - left. now apply String.eqb_neq.
    - right. apply Nat.ltb_ge. lia. }
  assert ((nth 2 P "" =? "blob") && (3 <? length P)%nat = false) as ->.
  { apply andb_false_iff. destruct Hcase as [[_ Hb]|Hl].
    - left. now apply String.eqb_neq.
    - right. apply Nat.ltb_ge. lia. }
  reflexivity.
Qed.

Lemma parse_github_url_path (up : string -> result string)
    (self : GitHubFolderDownloader) (path : string) :
  up (github_url self) = inr path ->
  parse_github_url up self = parse_path_parts (path_parts_of path).
Proof. unfold parse_github_url. now intros ->. Qed.

(** With the path [urlparse] extracts, parsing fails, and then with the
    invalid-URL error, exactly when fewer than two non-empty segments
    remain after splitting the path on [/]; a successful parse has a
    non-empty owner, and its repo is the second segment of the stripped
    path, empty only when a doubled slash follows the owner. *)
Lemma invalid_url_iff_few_segments (up : string -> result string)
    (self : GitHubFolderDownloader) (path : string) :
  up (github_url self) = inr path ->
  ((exists e, parse_github_url up self = inl e)
     <-> length (nonempty_segments path) < 2) /\
  (forall e, parse_github_url up self = inl e ->
             e = ValueError "Invalid GitHub URL format") /\
  (forall r, parse_github_url up self = inr r ->
             owner r <> "" /\
             repo r = nth 1 (path_parts_of path) "" /\
             (repo r = "" ->
              exists s rest, path_parts_of path = owner r :: "" :: s :: rest)).
Proof.
  intros Hup. rewrite (parse_github_url_path _ _ _ Hup).
  split; [|split].
  - rewrite <- few_parts_iff. split.
    + intros [e He]. now apply parse_path_parts_error in He.
    + intros H. eexists. now apply parse_path_parts_few.
  - intros e He. now apply parse_path_parts_error in He.
  - intros r Hr. apply parse_path_parts_owner_repo in Hr as (Hlen & Ho & Hr).
    destruct (path_parts_ends path Hlen) as [Hh Hl].
    destruct (path_parts_of path) as [|o [|rp rest]]; cbn in Hlen; try lia.
    cbn in Ho, Hr, Hh. subst o rp. split; [exact Hh|]. split; [reflexivity|].
    intros E. destruct rest as [|s rest].
    + cbn in Hl. congruence.
    + rewrite E. eauto.
Qed.

(** C5, where the code departs from it.  The guard of lines 27-28 counts
    the segments of the split path, empty ones included.  For
    [https://github.com/owner//x] the path has two non-empty segments and
    the parse succeeds, but the repo it returns is the empty string
    between the two slashes, while [https://github.com/owner/], with the
    owner alone, is refused.  With the empty repo the clone URL is
    [https://github.com/owner/.git], the clone directory is the workspace
    itself and the destination is the output directory itself. *)
Theorem C5_empty_repo_accepted :
  let env := Stub.env "/tmp/tmpx1" true "" in
  let self := init "https://github.com/owner//x" Stub.downloads in
  let r := mkReference "owner" "" "main" Branch "" in
  urlparse_path env (github_url self) = inr "/owner//x" /\
  nonempty_segments "/owner//x" = ["owner"; "x"] /\
  parse_github_url (urlparse_path env) self = inr r /\
  repo r = "" /\
  parse_github_url (urlparse_path env)
    (init "https://github.com/owner/" Stub.downloads)
  = inl (ValueError "Invalid GitHub URL format") /\
  clone_url_of r = "https://github.com/owner/.git" /\
  key env (clone_dir env r) = workspace env /\
  destination env self r = key env (output_dir self).
Proof.
  cbv zeta. repeat split; reflexivity.
Qed.

(** C6. When the third segment is [tree] or [blob] and a fourth one
    follows, the revision is the fourth segment and the path is the
    remaining segments joined with [/]; [tree] and [blob] give the same
    reference; and the path [/o/r/tree/ref/a/b] parses to path [a/b] and
    revision [ref]. *)
Theorem C6_tree_blob (up : string -> result string)
    (self : GitHubFolderDownloader) (path : string) :
  up (github_url self) = inr path ->
  (forall o rp kw ref rest,
      path_parts_of path = o :: rp :: kw :: ref :: rest ->
      kw = "tree" \/ kw = "blob" ->
      parse_github_url up self
      = inr (mkReference o rp ref (classify ref) (PyStr.join "/" rest))) /\
  (forall (self' : GitHubFolderDownloader) (path' : string) o rp ref rest,
      up (github_url self') = inr path' ->
      path_parts_of path = o :: rp :: "tree" :: ref :: rest ->
      path_parts_of path' = o :: rp :: "blob" :: ref :: rest ->
      parse_github_url up self = parse_github_url up self') /\
  (forall o rp kw ref a b,
      path = ("/" ++ o ++ "/" ++ rp ++ "/" ++ kw ++ "/" ++ ref ++ "/" ++ a ++ "/" ++ b)%string ->
      kw = "tree" \/ kw = "blob" ->
      o <> "" -> b <> "" ->
      Forall no_slash [o; rp; ref; a; b] ->
      parse_github_url up self
      = inr (mkReference o rp ref (classify ref) (a ++ "/" ++ b))).
Proof.
  intros Hup. rewrite (parse_github_url_path _ _ _ Hup). split; [|split].
  - intros o rp kw ref rest -> Hkw. now apply parse_path_parts_ref.
  - intros self' path' o rp ref rest Hup' -> E'.
    rewrite (parse_github_url_path _ _ _ Hup'), E'.
    rewrite !parse_path_parts_ref; auto.
  - intros o rp kw ref a b -> Hkw Ho Hb Hs.
    change ("/" ++ o ++ "/" ++ rp ++ "/" ++ kw ++ "/" ++ ref ++ "/" ++ a ++ "/" ++ b)%string
      with ("/" ++ PyStr.join "/" [o; rp; kw; ref; a; b])%string.
    rewrite path_parts_of_join.
    + now apply parse_path_parts_ref.
    + exact Ho.
    + exact Hb.
    + inversion Hs as [|? ? H1 Hs1]; subst. inversion Hs1 as [|? ? H2 Hs2]; subst.
      repeat constructor; try assumption.
      * destruct Hkw as [-> | ->]; reflexivity.
      * inversion Hs2; assumption.
      * inversion Hs2 as [|? ? ? Hs3]; inversion Hs3; assumption.
      * inversion Hs2 as [|? ? ? Hs3]; inversion Hs3 as [|? ? ? Hs4];
          inversion Hs4; assumption.
Qed.

Lemma C6_tree_blob_witness :
  parse_github_url Stub.urlparse
    (init "https://github.com/user/repo/blob/v1.2.0/docs/api/" Stub.downloads)
  = inr (mkReference "user" "repo" "v1.2.0" Tag "docs/api").
Proof.
  refine (proj2 (proj2 (C6_tree_blob Stub.urlparse
            (init "https://github.com/user/repo/blob/v1.2.0/docs/api/" Stub.downloads)
            "/user/repo/blob/v1.2.0/docs/api" eq_refl))
            "user" "repo" "blob" "v1.2.0" "docs" "api" eq_refl _ _ _ _).
  - now right.
  - discriminate.
  - discriminate.
  - repeat constructor.
Defined.

(** C10. With two segments or more, when the third is neither [tree] nor
    [blob], or no fourth one follows it, parsing succeeds with the
    defaults: revision [main], kind Branch, empty path. *)
Theorem C10_defaults (up : string -> result string)
    (self : GitHubFolderDownloader) (path : string) :
  up (github_url self) = inr path ->
  2 <= length (path_parts_of path) ->
  (nth 2 (path_parts_of path) "" <> "tree"
   /\ nth 2 (path_parts_of path) "" <> "blob")
  \/ length (path_parts_of path) <= 3 ->
  parse_github_url up self
  = inr (mkReference (nth 0 (path_parts_of path) "")
                     (nth 1 (path_parts_of path) "") "main" Branch "").
Proof.
  intros Hup Hlen Hcase. rewrite (parse_github_url_path _ _ _ Hup).
  now apply parse_path_parts_default.
Qed.

Lemma C10_defaults_witness :
  parse_github_url Stub.urlparse
    (init "https://github.com/user/repo/releases/tag/v1.0" Stub.downloads)
  = inr (mkReference "user" "repo" "main" Branch "")
  /\ parse_github_url Stub.urlparse
       (init "https://github.com/user/repo/tree/" Stub.downloads)
     = inr (mkReference "user" "repo" "main" Branch "").
Proof.
  split.
  - apply (C10_defaults Stub.urlparse
             (init "https://github.com/user/repo/releases/tag/v1.0" Stub.downloads)
             "/user/repo/releases/tag/v1.0" eq_refl).
    + vm_compute. lia.
    + left. split; discriminate.
  - apply (C10_defaults Stub.urlparse
             (init "https://github.com/user/repo/tree/" Stub.downloads)
             "/user/repo/tree" eq_refl).
    + vm_compute. lia.
    + right. vm_compute. lia.
Defined.

(** ** The destination name *)

Lemma append_nil_r (s : string) : (s ++ "")%string = s.
Proof. induction s as [|a s IH]; [reflexivity|]. now rewrite append_cons, IH. Qed.

Lemma join_not_empty (sep : string) (segs : list string) :
  List.last segs "" <> "" -> PyStr.join sep segs <> "".
Proof.
  induction segs as [|x segs IH]; [cbn; congruence|]. intros Hl.
  destruct segs as [|y segs]; [exact Hl|].
  rewrite join_cons. destruct x as [|a x]; [|discriminate].
  rewrite append_nil_l. intros E.
  apply (IH Hl). destruct sep; [now rewrite append_nil_l in E | discriminate].
Qed.

Lemma last_filter (p : string -> bool) (l : list string) (d : string) :
  l <> [] -> p (List.last l d) = true ->
  List.last (List.filter p l) d = List.last l d.
Proof.
  intros Hne. destruct (exists_last Hne) as (l' & x & ->).
  rewrite List.last_last. intros Hp.
  rewrite List.filter_app. cbn [List.filter]. rewrite Hp.
  apply List.last_last.
Qed.

(** The name of a path [s1/.../sn] is [sn], when no segment holds a slash
    and [sn] is neither empty nor a dot. *)
Lemma name_of_join (segs : list string) :
  Forall no_slash segs ->
  List.last segs "" <> "" -> List.last segs "" <> "." ->
  PurePath.name (PurePath.of_str (PyStr.join "/" segs)) = List.last segs "".
Proof.
  intros Hs Hl Hd. unfold PurePath.name, PurePath.of_str. cbn [PurePath.parts].
  assert (segs <> []) as Hne by (destruct segs; [cbn in Hl|]; congruence).
  rewrite split_join by assumption.
  apply last_filter; [assumption|].
  apply String.eqb_neq in Hl, Hd. now rewrite Hl, Hd.
Qed.

(** C4. The destination name is the base name of the path, or the repo
    name when the path is empty, followed by [_] and the first 8
    characters of the revision for a commit, [_] and the revision with [/]
    replaced by [_] for a tag, [_] and the revision for a branch; the
    suffix is left out exactly for the branch [main]. *)
Theorem C4_destination_name (r : Reference) :
  target_name r = (base_name r ++ revision_suffix r)%string /\
  (revision_suffix r = "" <-> ref_type r = Branch /\ git_ref r = "main") /\
  (forall segs,
      folder_path r = PyStr.join "/" segs ->
      Forall no_slash segs ->
      List.last segs "" <> "" -> List.last segs "" <> "." ->
      base_name r = List.last segs "").
Proof.
  split; [|split].
  - unfold target_name, base_name, revision_suffix.
    destruct r as [o rp ref k p]; cbn [folder_path ref_type git_ref repo].
    destruct (String.eqb p ""), k; cbn [negb RefType_eqb];
      try reflexivity;
      destruct (String.eqb ref "main"); cbn [negb];
      now rewrite ?append_nil_r.
  - unfold revision_suffix. destruct (ref_type r).
    + destruct (String.eqb_spec (git_ref r) "main") as [E|E].
      * tauto.
      * split; [discriminate|]. tauto.
    + split; [discriminate | intros [? _]; discriminate].
    + split; [discriminate | intros [? _]; discriminate].
  - intros segs E Hs Hl Hd. unfold base_name.
    destruct (String.eqb_spec (folder_path r) "") as [E0|_].
    + exfalso. apply (join_not_empty "/" segs Hl). congruence.
    + rewrite E. now apply name_of_join.
Qed.

(** The examples of the specification. *)
Example destination_examples :
  target_name (mkReference "user" "repo" "main" Branch "src") = "src" /\
  target_name (mkReference "user" "repo" "develop" Branch "src") = "src_develop" /\
  target_name (mkReference "binnewbs" "arch-hyprland"
                 "03b85877996253b0518e8a57f6249a4d2dcf4697" Commit ".config/waybar")
  = "waybar_03b85877" /\
  target_name (mkReference "user" "repo" "v1.2.0" Tag "") = "repo_v1.2.0".
Proof. repeat split. Qed.

(** ** The file system: lookups after updates *)

Lemma lookup_app (a b : FS.key) (n : node) :
  FS.lookup (a ++ b) n = FS.lookup a n ≫= FS.lookup b.
Proof.
  revert n. induction a as [|c a IH]; intros n; [reflexivity|].
  cbn [app FS.lookup]. destruct n as [d|es]; [reflexivity|].
  destruct (es !! c) as [n'|]; [apply IH | reflexivity].
Qed.

Lemma lookup_store (k : FS.key) (x n n' : node) :
  FS.store k x n = Some n' -> FS.lookup k n' = Some x.
Proof.
  revert n n'. induction k as [|c k IH]; intros n n' H; cbn in *.
  - congruence.
  - destruct n as [d|es]; [discriminate|].
    destruct (FS.store k x _) as [m|] eqn:E; [|discriminate].
    injection H as <-. rewrite lookup_insert_eq. eauto.
Qed.

Lemma lookup_store_frame (k q : FS.key) (x n n' : node) :
  FS.store k x n = Some n' -> ~ FS.comparable k q ->
  FS.lookup q n' = FS.lookup q n.
Proof.
  unfold FS.comparable.
  revert q n n'. induction k as [|c k IH]; intros q n n' H Hq.
  - exfalso. apply Hq. left. apply prefix_nil.
  - destruct q as [|c' q]; [exfalso; apply Hq; right; apply prefix_nil|].
    cbn in H. destruct n as [d|es]; [discriminate|].
    destruct (FS.store k x _) as [m|] eqn:E; [|discriminate].
    injection H as <-. cbn [FS.lookup].
    destruct (decide (c = c')) as [<-|Hne].
    + rewrite lookup_insert_eq.
      rewrite (IH q _ _ E).
      * destruct (es !! c); [reflexivity|]. cbn.
        destruct q; [exfalso; apply Hq; right; apply prefix_cons, prefix_nil|].
        cbn. now rewrite lookup_empty.
      * intros [P|P]; apply Hq; [left|right]; now apply prefix_cons.
    + now rewrite lookup_insert_ne.
Qed.

Lemma lookup_remove (k : FS.key) (n : node) :
  k <> [] -> FS.lookup k (FS.remove k n) = None.
Proof.
  revert n. induction k as [|c k IH]; intros n Hk; [congruence|].
  cbn [FS.remove]. destruct n as [d|es]; [reflexivity|].
  destruct k as [|c2 k].
  - cbn. now rewrite lookup_delete_eq.
  - destruct (es !! c) as [n'|] eqn:E.
    + cbn [FS.lookup]. rewrite lookup_insert_eq. now apply IH.
    + cbn [FS.lookup]. now rewrite E.
Qed.

Lemma lookup_remove_frame (k q : FS.key) (n : node) :
  ~ FS.comparable k q -> FS.lookup q (FS.remove k n) = FS.lookup q n.
Proof.
  unfold FS.comparable.
  revert q n. induction k as [|c k IH]; intros q n Hq.
  - exfalso. apply Hq. left. apply prefix_nil.
  - destruct q as [|c' q]; [exfalso; apply Hq; right; apply prefix_nil|].
    cbn [FS.remove]. destruct n as [d|es]; [reflexivity|].
    destruct k as [|c2 k].
    + cbn [FS.lookup]. destruct (decide (c = c')) as [<-|Hne].
      * exfalso. apply Hq. left. apply prefix_cons, prefix_nil.
      * now rewrite lookup_delete_ne.
    + destruct (es !! c) as [n'|] eqn:E; [|reflexivity].
      cbn [FS.lookup]. destruct (decide (c = c')) as [<-|Hne].
      * rewrite lookup_insert_eq, E. apply IH.
        intros [P|P]; apply Hq; [left|right]; now apply prefix_cons.
      * now rewrite lookup_insert_ne.
Qed.

(** Storing a new entry right below a directory adds it to that directory. *)
Lemma lookup_store_child (k : FS.key) (c : string) (x n n' : node)
    (es : gmap string node) :
  FS.lookup k n = Some (Dir es) -> FS.store (k ++ [c]) x n = Some n' ->
  FS.lookup k n' = Some (Dir (<[c := x]> es)).
Proof.
  revert n n'. induction k as [|c0 k IH]; intros n n' Hl Hs.
  - cbn in *. injection Hl as ->. now injection Hs as <-.
  - cbn in *. destruct n as [d|es0]; [discriminate|].
    destruct (es0 !! c0) as [m|] eqn:E; [|discriminate]. cbn in Hs.
    destruct (FS.store (k ++ [c]) x m) as [m'|] eqn:E'; [|discriminate].
    injection Hs as <-. rewrite lookup_insert_eq. eauto.
Qed.

(** ** The commands of a run *)

Section Quiet.
Variable env : Collaborators.

Lemma quiet_ret {A} (a : A) : quiet (mret a).
Proof. intros w; reflexivity. Qed.

Lemma quiet_raise {A} (e : exn) : quiet (raise (A := A) e).
Proof. intros w; reflexivity. Qed.

Lemma quiet_bind {A B} (m : M A) (k : A -> M B) :
  quiet m -> (forall a, quiet (k a)) -> quiet (m ≫= k).
Proof.
  intros Hm Hk w. unfold mbind, M_bind. specialize (Hm w).
  destruct (m w) as [[e|a] w1]; simpl in *; [assumption|].
  now rewrite Hk.
Qed.

Lemma quiet_with_root (f : node -> result node) : quiet (with_root f).
Proof. intros w. unfold with_root. destruct (f (root w)); reflexivity. Qed.

Lemma quiet_read {A} (f : node -> A) : quiet (read f).
Proof. intros w; reflexivity. Qed.

Lemma quiet_copy_items (rp tp : PurePath.t) (names : list string) :
  quiet (copy_items env rp tp names).
Proof.
  induction names as [|name names IH]; [apply quiet_ret|].
  cbn [copy_items]. apply quiet_bind; [|intros _; exact IH].
  destruct (negb _); [|apply quiet_ret].
  apply quiet_bind; [apply quiet_read|].
  intros []; apply quiet_with_root.
Qed.

Lemma quiet_step4 (self : GitHubFolderDownloader) (r : Reference) (rp : PurePath.t) :
  quiet (step4_copy env self r rp).
Proof.
  unfold step4_copy. destruct (negb _).
  - apply quiet_bind; [apply quiet_read|]. intros found.
    destruct (negb found); [apply quiet_raise|].
    apply quiet_bind; [apply quiet_read|]. intros there.
    apply quiet_bind; [destruct there; [apply quiet_with_root|apply quiet_ret]|].
    intros _. apply quiet_with_root.
  - apply quiet_bind; [apply quiet_read|]. intros there.
    apply quiet_bind; [destruct there; [apply quiet_with_root|apply quiet_ret]|].
    intros _. apply quiet_bind; [apply quiet_with_root|]. intros _.
    apply quiet_bind; [|intros; apply quiet_copy_items].
    intros w. unfold Path_iterdir. destruct (FS.lookup _ _) as [[]|]; reflexivity.
Qed.
End Quiet.

Section Subprocess.
Variable env : Collaborators.

Lemma subprocess_run_unfold (cmd : list string) (w : World) :
  subprocess_run env cmd w
  = (match raised_by cmd (process env cmd (root w)).1 with
     | None => inr tt
     | Some e => inl e
     end,
     mkWorld (process env cmd (root w)).2
             (trace w ++ [(cmd, (process env cmd (root w)).1)])).
Proof.
  unfold subprocess_run, raised_by.
  destruct (process env cmd (root w)) as [[rc|m|m] rt]; cbn [fst snd];
    [destruct (rc =? 0)%Z|..]; reflexivity.
Qed.

Lemma raised_by_none (cmd : list string) (p : ProcResult) :
  raised_by cmd p = None <-> p = Exited 0.
Proof.
  destruct p as [rc|m|m]; cbn; [|split; discriminate..].
  destruct (Z.eqb_spec rc 0) as [->|Hne]; [tauto|].
  split; [discriminate | congruence].
Qed.

Lemma raised_by_called (cmd cmd' : list string) (p : ProcResult) :
  raised_by cmd p = Some (CalledProcessError cmd') <->
  cmd' = cmd /\ exists rc, rc <> 0%Z /\ p = Exited rc.
Proof.
  destruct p as [rc|m|m]; cbn.
  - destruct (Z.eqb_spec rc 0) as [->|Hne].
    + split; [discriminate | intros (_ & rc & Hrc & E); congruence].
    + split; [intros E; injection E as <-; eauto | intros [-> _]; reflexivity].
  - split; [discriminate | intros (_ & rc & _ & E); discriminate].
  - split; [discriminate | intros (_ & rc & _ & E); discriminate].
Qed.
End Subprocess.

Section Shape.
Variable env : Collaborators.

Lemma bind_unfold {A B} (m : M A) (k : A -> M B) (w : World) :
  (m ≫= k) w = match m w with
               | (inr a, w') => k a w'
               | (inl e, w') => (inl e, w')
               end.
Proof. reflexivity. Qed.

(** The trace that step 2 and the steps after it leave. *)
Lemma tail_trace (self : GitHubFolderDownloader) (r : Reference)
    (rp : PurePath.t) (w : World) :
  exists t,
    tail_shape r rp t /\
    trace ((step2_sparse env r rp ;; step3_checkout env r rp ;;
            step4_copy env self r rp ;; mret (true, DownloadCompleted)) w).2
    = trace w ++ t.
Proof.
  rewrite bind_unfold. unfold step2_sparse at 1. rewrite bind_unfold.
  rewrite subprocess_run_unfold.
  destruct (process env (config_cmd rp) (root w)) as [p2 rt2]. cbn [fst snd].
  destruct (raised_by (config_cmd rp) p2) as [e|] eqn:E2.
  { exists [(config_cmd rp, p2)]. split; [left; eauto | reflexivity]. }
  match goal with
  | |- context [write_text env ?f ?d ?w0] =>
      pose proof (quiet_with_root _ : quiet (write_text env f d)) as Hq;
      specialize (Hq w0); destruct (write_text env f d w0) as [[e|[]] w3]
  end; cbn [snd trace] in Hq.
  { exists [(config_cmd rp, p2)]. split; [left; eauto | exact Hq]. }
  rewrite bind_unfold. unfold step3_checkout. rewrite subprocess_run_unfold.
  destruct (process env (checkout_cmd rp (git_ref r)) (root w3)) as [p3 rt3].
  cbn [fst snd]. apply raised_by_none in E2 as ->.
  exists [(config_cmd rp, Exited 0); (checkout_cmd rp (git_ref r), p3)].
  split; [right; eauto|].
  destruct (raised_by _ p3) as [e|].
  { cbn [snd trace]. rewrite Hq, <- app_assoc. reflexivity. }
  rewrite bind_unfold.
  match goal with
  | |- context [step4_copy env self r rp ?w0] =>
      pose proof (quiet_step4 env self r rp w0) as Hq4;
      destruct (step4_copy env self r rp w0) as [[e|[]] w4]
  end; cbn [snd trace] in Hq4; unfold mret, M_ret; cbn [snd trace];
    rewrite Hq4, Hq, <- app_assoc; reflexivity.
Qed.

Lemma steps_trace (self : GitHubFolderDownloader) (r : Reference)
    (url : string) (rp : PurePath.t) (w : World) :
  exists new,
    run_shape r url rp new /\
    trace (steps env self r url rp w).2 = trace w ++ new.
Proof.
  unfold steps. rewrite bind_unfold. unfold step1_clone.
  rewrite subprocess_run_unfold.
  set (clone := clone_cmd url rp (git_ref r) (ref_type r)).
  destruct (process env clone (root w)) as [p1 rt1]. cbn [fst snd].
  destruct (raised_by clone p1) as [e|] eqn:E1.
  { exists [(clone, p1)]. split; [|reflexivity]. left. exists p1. split; [|reflexivity].
    intros ->. discriminate. }
  apply raised_by_none in E1 as ->.
  set (w1 := mkWorld rt1 (trace w ++ [(clone, Exited 0)])).
  rewrite bind_unfold. unfold step1b_fetch_commit.
  destruct (ref_type r) eqn:Ek; cbn [RefType_eqb].
  - (* branch *)
    destruct (tail_trace self r rp w1) as (t & Ht & Et).
    exists ((clone, Exited 0) :: t). split.
    + unfold run_shape. rewrite Ek. right; left. split; [discriminate|]. eauto.
    + cbn [mret M_ret]. rewrite Et. subst w1. cbn [trace].
      now rewrite <- app_assoc.
  - (* commit *)
    unfold try_except. rewrite subprocess_run_unfold.
    set (cat := cat_file_cmd rp (git_ref r)).
    destruct (process env cat (root w1)) as [pc rtc]. cbn [fst snd].
    destruct (raised_by cat pc) as [e|] eqn:Ec.
    + destruct e as [m|cmd|m|m].
      * exists [(clone, Exited 0); (cat, pc)]. split.
        -- unfold run_shape. rewrite Ek. right; right. split; [reflexivity|].
           left. exists pc. split; [|reflexivity].
           intros rc ->. cbn in Ec. destruct (rc =? 0)%Z; discriminate.
        -- cbn [snd trace]. subst w1. cbn [trace]. now rewrite <- app_assoc.
      * apply raised_by_called in Ec as (-> & rc & Hrc & ->).
        rewrite subprocess_run_unfold.
        destruct (process env (unshallow_cmd rp) _) as [pu rtu]. cbn [fst snd root trace].
        destruct (raised_by (unshallow_cmd rp) pu) as [e|] eqn:Eu.
        -- exists [(clone, Exited 0); (cat, Exited rc); (unshallow_cmd rp, pu)]. split.
           ++ unfold run_shape. rewrite Ek. right; right. split; [reflexivity|].
              right; right; left. eauto.
           ++ cbn [snd trace]. subst w1. cbn [trace]. now rewrite <- !app_assoc.
        -- apply raised_by_none in Eu as ->.
           match goal with
           | |- context [(_ ;; _) ?w0] => destruct (tail_trace self r rp w0) as (t & Ht & Et)
           end.
           exists ((clone, Exited 0) :: (cat, Exited rc) :: (unshallow_cmd rp, Exited 0) :: t).
           split.
           ++ unfold run_shape. rewrite Ek. right; right. split; [reflexivity|].
              right; right; right. eauto 6.
           ++ rewrite Et. subst w1. cbn [trace]. now rewrite <- !app_assoc.
      * exists [(clone, Exited 0); (cat, pc)]. split.
        -- unfold run_shape. rewrite Ek. right; right. split; [reflexivity|].
           left. exists pc. split; [|reflexivity].
           intros rc ->. cbn in Ec. destruct (rc =? 0)%Z; discriminate.
        -- cbn [snd trace]. subst w1. cbn [trace]. now rewrite <- app_assoc.
      * exists [(clone, Exited 0); (cat, pc)]. split.
        -- unfold run_shape. rewrite Ek. right; right. split; [reflexivity|].
           left. exists pc. split; [|reflexivity].
           intros rc ->. cbn in Ec. destruct (rc =? 0)%Z; discriminate.
        -- cbn [snd trace]. subst w1. cbn [trace]. now rewrite <- app_assoc.
    + apply raised_by_none in Ec as ->.
      match goal with
      | |- context [(_ ;; _) ?w0] => destruct (tail_trace self r rp w0) as (t & Ht & Et)
      end.
      exists ((clone, Exited 0) :: (cat, Exited 0) :: t). split.
      * unfold run_shape. rewrite Ek. right; right. split; [reflexivity|].
        right; left. eauto.
      * rewrite Et. subst w1. cbn [trace]. now rewrite <- !app_assoc.
  - (* tag *)
    destruct (tail_trace self r rp w1) as (t & Ht & Et).
    exists ((clone, Exited 0) :: t). split.
    + unfold run_shape. rewrite Ek. right; left. split; [discriminate|]. eauto.
    + cbn [mret M_ret]. rewrite Et. subst w1. cbn [trace].
      now rewrite <- app_assoc.
Qed.
End Shape.

Section History.
Variable env : Collaborators.

Lemma verb_clone (url : string) (rp : PurePath.t) (ref : string) (k : RefType) :
  (verb (clone_cmd url rp ref k)).1 = "clone".
Proof. destruct k; reflexivity. Qed.

Lemma quiet_handlers (e : exn) (h : M (bool * Report)) :
  handlers e = Some h -> quiet h.
Proof.
  destruct e; cbn; intros H; injection H as <-; apply quiet_ret.
Qed.

Lemma try_except_handlers_trace (m : M (bool * Report)) (w : World) :
  trace (try_except m handlers w).2 = trace (m w).2.
Proof.
  unfold try_except. destruct (m w) as [[e|a] w']; [|reflexivity].
  destruct (handlers e) as [h|] eqn:E; [|reflexivity].
  apply (quiet_handlers _ _ E).
Qed.

(** The commands a whole run adds to the trace. *)
Lemma download_trace (self : GitHubFolderDownloader) (r : Reference) (w : World) :
  parse_github_url (urlparse_path env) self = inr r ->
  exists new,
    trace (download_with_sparse_checkout env self w).2 = trace w ++ new /\
    (new = [] \/
     run_shape r (clone_url_of r) (clone_dir env r) new).
Proof.
  intros Hp. unfold download_with_sparse_checkout. rewrite Hp.
  unfold with_TemporaryDirectory.
  destruct (FS.lookup (FS.parent _) (root w)) as [[d|es]|];
    try (exists []; split; [now rewrite app_nil_r | now left]).
  destruct (FS.lookup _ (root w)) as [n|];
    [exists []; split; [now rewrite app_nil_r | now left]|].
  destruct (FS.store _ _ (root w)) as [r0|];
    [|exists []; split; [now rewrite app_nil_r | now left]].
  match goal with
  | |- context [try_except (steps env self r ?url ?rp) handlers ?w0] =>
      destruct (steps_trace env self r url rp w0) as (new & Hs & Et);
      pose proof (try_except_handlers_trace (steps env self r url rp) w0) as Eh;
      destruct (try_except (steps env self r url rp) handlers w0) as [res w']
  end.
  exists new. split; [|now right].
  cbn [snd trace] in *. now rewrite Eh, Et.
Qed.

End History.

Ltac other_verb H :=
  apply (f_equal verb) in H; apply (f_equal fst) in H as ?; apply (f_equal snd) in H;
  rewrite ?verb_clone in *; cbn in *; discriminate.

Ltac sort_out :=
  repeat match goal with
         | H : False |- _ => destruct H
         | H : _ \/ _ |- _ => destruct H as [H|H]
         | H : (_, _) = (_, _) |- _ => apply pair_equal_spec in H as [? ?]
         | H : @eq (list string) _ _ |- _ => solve [exfalso; other_verb H]
         | H : @eq ProcResult _ _ |- _ => first [discriminate H | injection H as H]
         end.

Lemma shape_unshallow (r : Reference) (url : string) (rp : PurePath.t)
    (new : list (list string * ProcResult)) :
  run_shape r url rp new ->
  (In (unshallow_cmd rp) new.*1 <->
   ref_type r = Commit /\
   exists rc, rc <> 0%Z /\ In (cat_file_cmd rp (git_ref r), Exited rc) new).
Proof.
  unfold run_shape, tail_shape.
  intros [(p & _ & ->) | [(Hk & t & Ht & ->) | (Hk & Hs)]].
  - cbn. split; [intros H | intros (_ & rc & _ & H)]; sort_out.
  - destruct Ht as [[p ->] | [p ->]]; cbn;
      (split; [intros H | intros (_ & rc & _ & H)]); sort_out.
  - destruct Hs as [(p & Hp & ->) | [(t & Ht & ->) | [(rc & p & Hrc & ->) | (rc & t & Hrc & Ht & ->)]]].
    + cbn. split; [intros H | intros (_ & rc & _ & H)]; sort_out.
      subst p. now destruct (Hp rc).
    + destruct Ht as [[p ->] | [p ->]]; cbn;
        (split; [intros H | intros (_ & rc & Hrc & H)]); sort_out; congruence.
    + split; [intros _ | intros _; cbn; tauto].
      split; [exact Hk|]. exists rc. split; [exact Hrc|]. cbn. tauto.
    + split; [intros _ | intros _; cbn; tauto].
      split; [exact Hk|]. exists rc. split; [exact Hrc|]. cbn. tauto.
Qed.

Lemma shape_after_clone (r : Reference) (url : string) (rp : PurePath.t)
    (new : list (list string * ProcResult)) :
  run_shape r url rp new -> ref_type r <> Commit ->
  forall c rest, new = (c, Exited 0) :: rest ->
    exists p rest', rest = (config_cmd rp, p) :: rest'.
Proof.
  unfold run_shape, tail_shape.
  intros [(p & Hp & ->) | [(_ & t & Ht & ->) | (Hk & _)]] Hnk c rest E;
    [congruence| |congruence].
  injection E as _ <-. destruct Ht as [[p ->] | [p ->]]; eauto.
Qed.

Lemma shape_after_probe (r : Reference) (url : string) (rp : PurePath.t)
    (new : list (list string * ProcResult)) :
  run_shape r url rp new -> ref_type r = Commit ->
  forall c rest, new = c :: (cat_file_cmd rp (git_ref r), Exited 0) :: rest ->
    exists p rest', rest = (config_cmd rp, p) :: rest'.
Proof.
  unfold run_shape, tail_shape.
  intros [(p & Hp & ->) | [(Hnk & _) | (_ & Hs)]] Hk c rest E;
    [discriminate|congruence|].
  destruct Hs as [(p & Hp & ->) | [(t & Ht & ->) | [(rc & p & Hrc & ->) | (rc & t & Hrc & Ht & ->)]]].
  - injection E as _ E _. now destruct (Hp 0%Z).
  - injection E as _ <-. destruct Ht as [[p ->] | [p ->]]; eauto.
  - injection E as _ E _. congruence.
  - injection E as _ E _. congruence.
Qed.

(** C3. The whole history is fetched exactly when the revision is a
    commit and the probe for it exits with an error; after a successful
    probe, and after the clone for a branch or a tag, the next command is
    the sparse-checkout configuration. *)
Theorem C3_history_extension (env : Collaborators)
    (self : GitHubFolderDownloader) (r : Reference) (w : World) :
  parse_github_url (urlparse_path env) self = inr r ->
  exists new,
    trace (download_with_sparse_checkout env self w).2 = trace w ++ new /\
    (In (unshallow_cmd (clone_dir env r)) new.*1 <->
       ref_type r = Commit /\
       exists rc, rc <> 0%Z /\
         In (cat_file_cmd (clone_dir env r) (git_ref r),
             Exited rc) new) /\
    (ref_type r <> Commit ->
     forall c rest, new = (c, Exited 0) :: rest ->
       exists p rest',
         rest = (config_cmd (clone_dir env r), p) :: rest') /\
    (ref_type r = Commit ->
     forall c rest,
       new = c :: (cat_file_cmd (clone_dir env r) (git_ref r),
                   Exited 0) :: rest ->
       exists p rest',
         rest = (config_cmd (clone_dir env r), p) :: rest').
Proof.
  intros Hp. destruct (download_trace env self r w Hp) as (new & Et & Hs).
  exists new. split; [exact Et|]. clear Et.
  destruct Hs as [-> | Hs].
  - split; [|split].
    + cbn. split; [tauto | intros (_ & rc & _ & [])].
    + intros _ c rest H. discriminate.
    + intros _ c rest H. discriminate.
  - split; [|split].
    + eapply shape_unshallow, Hs.
    + eapply shape_after_clone, Hs.
    + eapply shape_after_probe, Hs.
Qed.

(** The options of the clone, between [git clone] and its two arguments. *)
Lemma clone_cmd_options (clone_url : string) (repo_path : PurePath.t)
    (r : Reference) :
  exists opts,
    clone_cmd clone_url repo_path (git_ref r) (ref_type r)
    = "git" :: "clone" :: opts ++ [clone_url; PurePath.str repo_path] /\
    In "--no-checkout" opts /\ In "--filter=blob:none" opts /\
    (ref_type r <> Commit ->
     opts = ["--no-checkout"; "--filter=blob:none";
             "--depth"; "1"; "--branch"; git_ref r]) /\
    (ref_type r = Commit ->
     opts = ["--no-checkout"; "--filter=blob:none"]).
Proof.
  unfold clone_cmd. destruct (ref_type r); cbn [negb RefType_eqb].
  - exists ["--no-checkout"; "--filter=blob:none"; "--depth"; "1"; "--branch"; git_ref r].
    repeat split; cbn; auto; congruence.
  - exists ["--no-checkout"; "--filter=blob:none"].
    repeat split; cbn; auto; congruence.
  - exists ["--no-checkout"; "--filter=blob:none"; "--depth"; "1"; "--branch"; git_ref r].
    repeat split; cbn; auto; congruence.
Qed.

Lemma shape_first (r : Reference) (url : string) (rp : PurePath.t)
    (new : list (list string * ProcResult)) :
  run_shape r url rp new ->
  exists p rest, new = (clone_cmd url rp (git_ref r) (ref_type r), p) :: rest.
Proof.
  unfold run_shape.
  intros [(p & _ & ->) | [(_ & t & _ & ->) | (_ & Hs)]]; eauto.
  destruct Hs as [(p & _ & ->) | [(t & _ & ->) | [(rc & p & _ & ->) | (rc & t & _ & _ & ->)]]];
    eauto.
Qed.

(** C2. The clone is run without checkout and with the blob filter.  Any
    revision but a commit adds depth 1 and the revision as the branch to
    fetch; a commit adds neither.  This clone is the first command of
    every run. *)
Theorem C2_clone_command :
  (forall (clone_url : string) (repo_path : PurePath.t) (r : Reference),
      exists opts,
        clone_cmd clone_url repo_path (git_ref r) (ref_type r)
        = "git" :: "clone" :: opts ++ [clone_url; PurePath.str repo_path] /\
        In "--no-checkout" opts /\ In "--filter=blob:none" opts /\
        (ref_type r <> Commit ->
         opts = ["--no-checkout"; "--filter=blob:none";
                 "--depth"; "1"; "--branch"; git_ref r]) /\
        (ref_type r = Commit ->
         opts = ["--no-checkout"; "--filter=blob:none"])) /\
  (forall (env : Collaborators) (self : GitHubFolderDownloader)
          (r : Reference) (w : World),
      parse_github_url (urlparse_path env) self = inr r ->
      exists new,
        trace (download_with_sparse_checkout env self w).2 = trace w ++ new /\
        (new = [] \/
         exists p rest,
           new = (clone_cmd (clone_url_of r) (clone_dir env r)
                            (git_ref r) (ref_type r), p) :: rest)).
Proof.
  split.
  - exact clone_cmd_options.
  - intros env self r w Hp.
    destruct (download_trace env self r w Hp) as (new & Et & [-> | Hs]).
    + exists []. split; [exact Et | now left].
    + exists new. split; [exact Et|]. right. eapply shape_first, Hs.
Qed.

Lemma C2_clone_command_witness :
  clone_cmd "https://github.com/user/repo.git" (PurePath.of_str "/tmp/tmpx1/repo")
            "v1.2.0" Tag
  = ["git"; "clone"; "--no-checkout"; "--filter=blob:none";
     "--depth"; "1"; "--branch"; "v1.2.0";
     "https://github.com/user/repo.git"; "/tmp/tmpx1/repo"].
Proof.
  destruct (proj1 C2_clone_command "https://github.com/user/repo.git"
              (PurePath.of_str "/tmp/tmpx1/repo")
              (mkReference "user" "repo" "v1.2.0" Tag "docs"))
    as (opts & E & _ & _ & Hopts & _).
  cbn [git_ref ref_type] in E, Hopts.
  rewrite E, (Hopts ltac:(discriminate)). reflexivity.
Defined.

(** ** The run, step by step *)

Section RunStructure.
Variable env : Collaborators.

Lemma bind_assoc {A B C} (m : M A) (f : A -> M B) (g : B -> M C) (w : World) :
  ((m ≫= f) ≫= g) w = (m ≫= (fun a => f a ≫= g)) w.
Proof.
  rewrite !bind_unfold. destruct (m w) as [[e|a] w1]; reflexivity.
Qed.

(** The body of the [try] is the checkout stage followed by step 4. *)
Lemma steps_split (self : GitHubFolderDownloader) (r : Reference) (w : World) :
  steps env self r (clone_url_of r) (clone_dir env r) w
  = (checkout_stage env r ;;
     step4_copy env self r (clone_dir env r) ;;
     mret (true, DownloadCompleted)) w.
Proof.
  unfold steps, checkout_stage. rewrite !bind_assoc.
  rewrite !bind_unfold. destruct (step1_clone _ _ _ _ w) as [[e|a] w1]; [reflexivity|].
  rewrite !bind_assoc. rewrite !bind_unfold.
  destruct (step1b_fetch_commit _ _ _ w1) as [[e|b] w2]; [reflexivity|].
  rewrite !bind_assoc. reflexivity.
Qed.

(** A run is: parse, make the workspace, run the body under the handlers,
    remove the workspace. *)
Lemma download_unfold (self : GitHubFolderDownloader) (r : Reference)
    (w w0 : World) :
  parse_github_url (urlparse_path env) self = inr r ->
  workspace_made env w = Some w0 ->
  download_with_sparse_checkout env self w
  = ((try_except (steps env self r (clone_url_of r) (clone_dir env r)) handlers w0).1,
     mkWorld (FS.remove (workspace env)
                (root (try_except (steps env self r (clone_url_of r) (clone_dir env r))
                         handlers w0).2))
             (trace (try_except (steps env self r (clone_url_of r) (clone_dir env r))
                       handlers w0).2)).
Proof.
  intros Hp Hw. unfold download_with_sparse_checkout. rewrite Hp.
  unfold with_TemporaryDirectory, workspace_made, workspace in *.
  destruct (FS.lookup (FS.parent _) (root w)) as [[d|es]|]; try discriminate.
  destruct (FS.lookup _ (root w)) as [n|]; [discriminate|].
  destruct (FS.store _ _ (root w)) as [r0|]; [|discriminate].
  injection Hw as <-.
  fold (clone_dir env r). fold (clone_url_of r).
  now destruct (try_except _ handlers _) as [res w'].
Qed.

(** Without a workspace a run raises, and leaves the world as it was. *)
Lemma download_no_workspace (self : GitHubFolderDownloader) (w : World) :
  (forall r, parse_github_url (urlparse_path env) self = inr r ->
             workspace_made env w = None) ->
  (exists e, (download_with_sparse_checkout env self w).1 = inl e) /\
  (download_with_sparse_checkout env self w).2 = w.
Proof.
  intros H. unfold download_with_sparse_checkout.
  destruct (parse_github_url (urlparse_path env) self) as [e|r]; [cbn; eauto|].
  specialize (H r eq_refl).
  unfold with_TemporaryDirectory, workspace_made, workspace in *.
  destruct (FS.lookup (FS.parent _) (root w)) as [[d|es]|]; cbn; eauto.
  destruct (FS.lookup _ (root w)) as [n|]; cbn; eauto.
  destruct (FS.store _ _ (root w)) as [r0|]; [discriminate | cbn; eauto].
Qed.

Lemma workspace_made_key (w w0 : World) :
  workspace_made env w = Some w0 -> workspace env <> [].
Proof.
  unfold workspace_made. intros H E. rewrite E in H. cbn in H.
  destruct (root w); discriminate.
Qed.

End RunStructure.

(** C9. Whatever way a run ends, with [True], with [False] after a failed
    command or a missing folder, or with an exception of the parser or of
    the workspace's creation, the scratch workspace that [tempfile] named
    is not there afterwards. *)
Theorem C9_workspace_removed (env : Collaborators)
    (self : GitHubFolderDownloader) (w : World) :
  FS.lookup (workspace env) (root w) = None ->
  FS.lookup (workspace env)
    (root (download_with_sparse_checkout env self w).2) = None.
Proof.
  intros Hfresh.
  destruct (parse_github_url (urlparse_path env) self) as [e|r] eqn:Hp.
  - destruct (download_no_workspace env self w) as [_ ->]; [|exact Hfresh].
    intros r Hr. congruence.
  - destruct (workspace_made env w) as [w0|] eqn:Hw.
    + rewrite (download_unfold env self r w w0 Hp Hw). cbn [snd root].
      apply lookup_remove. eapply workspace_made_key, Hw.
    + destruct (download_no_workspace env self w) as [_ ->]; [|exact Hfresh].
      intros r' Hr'. exact Hw.
Qed.
(** ** Step 4: what the copy leaves at the destination *)

Section CopyFacts.
Variable env : Collaborators.

Lemma with_root_ok (f : node -> result node) (w w' : World) :
  with_root f w = (inr tt, w') ->
  f (root w) = inr (root w') /\ trace w' = trace w.
Proof.
  unfold with_root. destruct (f (root w)) as [e|r]; [discriminate|].
  intros H. injection H as <-. now split.
Qed.

Lemma copytree_ok (src dst : PurePath.t) (w w' : World) :
  shutil_copytree env src dst w = (inr tt, w') ->
  exists es, FS.lookup (key env src) (root w) = Some (Dir es)
             /\ FS.store (key env dst) (Dir es) (root w) = Some (root w').
Proof.
  intros H. unfold shutil_copytree in H. apply with_root_ok in H as [H _].
  cbv beta in H.
  destruct (FS.lookup (key env src) (root w)) as [[d|es]|]; try discriminate.
  destruct (FS.exists_ _ _); [discriminate|].
  destruct (FS.store _ _ _) as [r'|] eqn:E; [|discriminate].
  injection H as <-. exists es. now split.
Qed.

Lemma copy2_ok (src dst : PurePath.t) (w w' : World) :
  shutil_copy2 env src dst w = (inr tt, w') ->
  exists d, FS.lookup (key env src) (root w) = Some (File d)
            /\ FS.store (key env dst) (File d) (root w) = Some (root w').
Proof.
  intros H. unfold shutil_copy2 in H. apply with_root_ok in H as [H _].
  cbv beta in H.
  destruct (FS.lookup (key env src) (root w)) as [[d|es]|]; try discriminate.
  destruct (FS.lookup (FS.parent _) _) as [[?|?]|]; try discriminate.
  destruct (FS.lookup (key env dst) _) as [[?|?]|]; try discriminate;
    (destruct (FS.store _ _ _) as [r'|] eqn:E; [|discriminate]);
    injection H as <-; exists d; now split.
Qed.

Lemma rmtree_ok (p : PurePath.t) (w w' : World) :
  shutil_rmtree env p w = (inr tt, w') ->
  root w' = FS.remove (key env p) (root w).
Proof.
  intros H. unfold shutil_rmtree in H. apply with_root_ok in H as [H _].
  cbv beta in H.
  destruct (FS.lookup _ _) as [[d|es]|]; try discriminate. congruence.
Qed.

Lemma key_child (p : PurePath.t) (c : string) :
  key env (child p c) = key env p ++ [c].
Proof.
  unfold key, child. cbn. destruct (PurePath.anchored p); [reflexivity|].
  now rewrite app_assoc.
Qed.

Lemma name_child (p : PurePath.t) (c : string) : PurePath.name (child p c) = c.
Proof. unfold PurePath.name, child. cbn. apply List.last_last. Qed.

Lemma of_str_valid (c : string) :
  valid_name c = true -> PurePath.of_str c = PurePath.mk false [c].
Proof.
  unfold valid_name. rewrite !andb_true_iff, !negb_true_iff.
  intros [[Hne Hdot] Hs]. apply String.eqb_neq in Hne, Hdot.
  unfold PurePath.of_str. f_equal.
  - unfold PyStr.startswith. destruct c as [|a c]; [congruence|].
    unfold no_slash in Hs. cbn [PyStr.char_in] in Hs.
    apply orb_false_iff in Hs as [Ha _]. apply Ascii.eqb_neq in Ha.
    change (String.prefix "/" (String a c))
      with (if ascii_dec "/" a then String.prefix "" c else false).
    destruct (ascii_dec "/" a); congruence.
  - rewrite (split_no_sep _ _ Hs). cbn [List.filter].
    apply String.eqb_neq in Hne, Hdot. now rewrite Hne, Hdot.
Qed.

Lemma key_truediv_valid (p : PurePath.t) (c : string) :
  valid_name c = true -> key env (p // c) = key env p ++ [c].
Proof.
  intros Hc. rewrite (of_str_valid _ Hc), <- key_child. reflexivity.
Qed.

Lemma prefix_snoc_inv (a b : FS.key) (c : string) :
  a `prefix_of` b ++ [c] -> a `prefix_of` b \/ a = b ++ [c].
Proof.
  intros [k Hk]. destruct k as [|x k _] using rev_ind.
  - right. now rewrite app_nil_r in Hk.
  - left. rewrite app_assoc in Hk. apply app_inj_tail in Hk as [-> _].
    now exists k.
Qed.

Lemma not_comparable_child (a b : FS.key) (c : string) :
  ~ FS.comparable a b -> ~ FS.comparable (b ++ [c]) a.
Proof.
  unfold FS.comparable. intros H [P|P]; apply H.
  - right. etransitivity; [|exact P]. now apply prefix_app_r.
  - apply prefix_snoc_inv in P as [P | ->]; [now left|].
    right. now apply prefix_app_r.
Qed.

Lemma not_comparable_nil (a b : FS.key) : ~ FS.comparable a b -> b <> [].
Proof. intros H ->. apply H. right. apply prefix_nil. Qed.

Lemma not_comparable_sym (a b : FS.key) :
  ~ FS.comparable a b -> ~ FS.comparable b a.
Proof. unfold FS.comparable. tauto. Qed.

(** The loop leaves the clone as it is and adds its entries, [.git]
    apart, to the destination. *)
Lemma copy_items_spec (es : gmap string node) (rp tp : PurePath.t) :
  ~ FS.comparable (key env rp) (key env tp) ->
  forall (names : list string) (acc : gmap string node) (w w' : World),
    (forall c, In c names -> c <> ".git" -> valid_name c = true) ->
    FS.lookup (key env rp) (root w) = Some (Dir es) ->
    FS.lookup (key env tp) (root w) = Some (Dir acc) ->
    copy_items env rp tp names w = (inr tt, w') ->
    FS.lookup (key env rp) (root w') = Some (Dir es) /\
    FS.lookup (key env tp) (root w') = Some (Dir (placed es acc names)).
Proof.
  intros Hsep. induction names as [|c names IH]; intros acc w w' Hval Hrp Htp Hrun.
  - cbn in Hrun. injection Hrun as <-. now split.
  - cbn [copy_items] in Hrun. rewrite bind_unfold, name_child in Hrun.
    cbn [placed].
    assert (forall c', In c' names -> c' <> ".git" -> valid_name c' = true) as Hval'
      by (intros c' Hin; apply Hval; now right).
    destruct (String.eqb_spec c ".git") as [->|Hgit]; cbn [negb] in Hrun.
    { cbn in Hrun. now apply (IH acc w w'). }
    rewrite bind_unfold in Hrun. cbn [Path_is_dir read] in Hrun.
    unfold Path_is_dir, read, FS.is_dir in Hrun.
    rewrite key_child, lookup_app, Hrp in Hrun. cbn [mbind option_bind FS.lookup] in Hrun.
    assert (valid_name c = true) as Hc by (apply Hval; [now left | assumption]).
    rewrite (of_str_valid _ Hc) in Hrun.
    change (PurePath.truediv tp (PurePath.mk false [c])) with (child tp c) in Hrun.
    assert (forall x w1,
               FS.store (key env (child tp c)) x (root w) = Some (root w1) ->
               FS.lookup (key env rp) (root w1) = Some (Dir es) /\
               FS.lookup (key env tp) (root w1) = Some (Dir (<[c := x]> acc)))
      as Hstep.
    { intros x w1 Hst. rewrite key_child in Hst. split.
      - rewrite (lookup_store_frame _ _ _ _ _ Hst); [exact Hrp|].
        now apply not_comparable_child.
      - eapply lookup_store_child; eassumption. }
    destruct (es !! c) as [[d|sub]|] eqn:Ec.
    + (* a file *)
      destruct (shutil_copy2 env (child rp c) (child tp c) w) as [[e|[]] w1] eqn:E1;
        [discriminate|].
      apply copy2_ok in E1 as (d' & Hsrc & Hst).
      rewrite key_child, lookup_app, Hrp in Hsrc. cbn in Hsrc. rewrite Ec in Hsrc.
      injection Hsrc as <-.
      destruct (Hstep _ _ Hst) as [Hrp1 Htp1].
      now apply (IH _ w1 w').
    + (* a directory *)
      destruct (shutil_copytree env (child rp c) (child tp c) w) as [[e|[]] w1] eqn:E1;
        [discriminate|].
      apply copytree_ok in E1 as (sub' & Hsrc & Hst).
      rewrite key_child, lookup_app, Hrp in Hsrc. cbn in Hsrc. rewrite Ec in Hsrc.
      injection Hsrc as <-.
      destruct (Hstep _ _ Hst) as [Hrp1 Htp1].
      now apply (IH _ w1 w').
    + (* gone *)
      destruct (shutil_copy2 env (child rp c) (child tp c) w) as [[e|[]] w1] eqn:E1;
        [discriminate|].
      apply copy2_ok in E1 as (d' & Hsrc & _).
      rewrite key_child, lookup_app, Hrp in Hsrc. cbn in Hsrc. rewrite Ec in Hsrc.
      discriminate.
Qed.

(** Over all the names of [es], the loop places [es] without [.git]. *)
Lemma placed_lookup (es : gmap string node) (names : list string)
    (acc : gmap string node) (c : string) :
  placed es acc names !! c
  = if decide (c ∈ names /\ c <> ".git")
    then match es !! c with Some x => Some x | None => acc !! c end
    else acc !! c.
Proof.
  revert acc. induction names as [|n names IH]; intros acc.
  - cbn. destruct (decide _) as [[H _]|]; [|reflexivity]. now apply elem_of_nil in H.
  - cbn [placed]. rewrite IH. clear IH.
    destruct (String.eqb_spec n ".git") as [->|Hn].
    + destruct (decide (c ∈ names /\ c <> ".git")) as [[Hin Hc]|Hno];
        destruct (decide (c ∈ ".git" :: names /\ c <> ".git")) as [[Hin' Hc']|Hno'];
        try reflexivity; exfalso.
      * apply Hno'. split; [now apply elem_of_cons; right | assumption].
      * apply Hno. split; [|assumption].
        apply elem_of_cons in Hin' as [E|Hin']; [congruence | assumption].
    + destruct (decide (c = n)) as [->|Hcn].
      * destruct (decide (n ∈ n :: names /\ n <> ".git")) as [_|Hno'];
          [|exfalso; apply Hno'; split; [now apply elem_of_cons; left | assumption]].
        destruct (es !! n) as [x|] eqn:En.
        -- rewrite lookup_insert_eq. now destruct (decide _).
        -- now destruct (decide _).
      * assert ((match es !! n with Some x => <[n:=x]> acc | None => acc end) !! c
                = acc !! c) as ->.
        { destruct (es !! n); [now rewrite lookup_insert_ne|reflexivity]. }
        destruct (decide (c ∈ names /\ c <> ".git")) as [[Hin Hc]|Hno];
          destruct (decide (c ∈ n :: names /\ c <> ".git")) as [[Hin' Hc']|Hno'];
          try reflexivity; exfalso.
        -- apply Hno'. split; [now apply elem_of_cons; right | assumption].
        -- apply Hno. split; [|assumption].
           apply elem_of_cons in Hin' as [E|Hin']; [congruence | assumption].
Qed.

Lemma placed_all (es : gmap string node) :
  placed es ∅ (map_to_list es).*1 = delete ".git" es.
Proof.
  apply map_eq. intros c. rewrite placed_lookup, lookup_empty.
  destruct (decide (c = ".git")) as [->|Hc].
  - rewrite lookup_delete_eq. destruct (decide _) as [[_ H]|]; congruence.
  - rewrite lookup_delete_ne by congruence.
    destruct (es !! c) as [x|] eqn:Ec; [|now destruct (decide _)].
    destruct (decide _) as [|Hno]; [reflexivity|].
    exfalso. apply Hno. split; [|assumption].
    apply list_elem_of_fmap. exists (c, x). split; [reflexivity|].
    now apply elem_of_map_to_list.
Qed.

Lemma exists_true (k : FS.key) (n : node) :
  FS.exists_ k n = true <-> is_Some (FS.lookup k n).
Proof.
  unfold FS.exists_. destruct (FS.lookup k n); split; intros H;
    try reflexivity; try discriminate; [eauto | destruct H; discriminate].
Qed.

(** The old destination is out of the way once the guard of lines 203-205
    (224-227) has run. *)
Lemma clear_target (tp : PurePath.t) (w w1 : World) (q : FS.key) :
  (there ← Path_exists env tp;
   if there : bool then shutil_rmtree env tp else mret tt) w = (inr tt, w1) ->
  ~ FS.comparable q (key env tp) ->
  FS.lookup (key env tp) (root w1) = None /\
  FS.lookup q (root w1) = FS.lookup q (root w).
Proof.
  intros H Hsep. rewrite bind_unfold in H. unfold Path_exists, read in H.
  destruct (FS.exists_ (key env tp) (root w)) eqn:Ex.
  - apply rmtree_ok in H. rewrite H. split.
    + apply lookup_remove. eapply not_comparable_nil, Hsep.
    + apply lookup_remove_frame. now apply not_comparable_sym.
  - cbn in H. injection H as <-. split; [|reflexivity].
    unfold FS.exists_ in Ex. now destruct (FS.lookup _ _).
Qed.

(** Step 4 for a folder: the destination ends as a copy of the folder. *)
Lemma step4_folder (self : GitHubFolderDownloader) (r : Reference) (w w' : World) :
  folder_path r <> "" ->
  step4_copy env self r (clone_dir env r) w = (inr tt, w') ->
  ~ FS.comparable (source env r) (destination env self r) ->
  exists es,
    FS.lookup (source env r) (root w) = Some (Dir es) /\
    FS.lookup (destination env self r) (root w') = Some (Dir es).
Proof.
  intros Hfp Hrun Hsep. unfold source, destination in *. unfold step4_copy in Hrun.
  apply String.eqb_neq in Hfp. rewrite Hfp in *. cbn [negb] in Hrun.
  rewrite bind_unfold in Hrun. unfold Path_exists at 1, read at 1 in Hrun.
  destruct (FS.exists_ _ (root w)); cbn [negb] in Hrun; [|discriminate].
  rewrite <- bind_assoc, bind_unfold in Hrun.
  match type of Hrun with
  | context [(?m ≫= ?k) w] => destruct ((m ≫= k) w) as [[e|[]] w1] eqn:E1
  end; [discriminate|].
  destruct (clear_target _ _ _ _ E1 Hsep) as [_ Hq].
  apply copytree_ok in Hrun as (es & Hsrc & Hst).
  exists es. split; [congruence|]. eapply lookup_store, Hst.
Qed.

(** Step 4 for a whole repository: the destination ends as a copy of the
    clone without its [.git]. *)
Lemma step4_whole (self : GitHubFolderDownloader) (r : Reference) (w w' : World) :
  folder_path r = "" ->
  step4_copy env self r (clone_dir env r) w = (inr tt, w') ->
  ~ FS.comparable (source env r) (destination env self r) ->
  (forall es, FS.lookup (source env r) (root w) = Some (Dir es) ->
              forall c, is_Some (es !! c) -> c <> ".git" -> valid_name c = true) ->
  exists es,
    FS.lookup (source env r) (root w) = Some (Dir es) /\
    FS.lookup (destination env self r) (root w') = Some (Dir (delete ".git" es)).
Proof.
  intros Hfp Hrun Hsep Hval. unfold source, destination in *. unfold step4_copy in Hrun.
  rewrite Hfp in *. cbn [String.eqb negb] in *.
  rewrite <- bind_assoc, bind_unfold in Hrun.
  match type of Hrun with
  | context [(?m ≫= ?k) w] => destruct ((m ≫= k) w) as [[e|[]] w1] eqn:E1
  end; [discriminate|].
  destruct (clear_target _ _ _ _ E1 Hsep) as [Hnone Hq].
  rewrite bind_unfold in Hrun.
  destruct (Path_mkdir env _ w1) as [[e|[]] w2] eqn:E2; [discriminate|].
  unfold Path_mkdir in E2. apply with_root_ok in E2 as [E2 _]. cbv beta in E2.
  rewrite Hnone in E2.
  destruct (FS.store _ (Dir ∅) (root w1)) as [r2|] eqn:Hst; [|discriminate].
  injection E2 as E2. subst r2.
  rewrite bind_unfold in Hrun. unfold Path_iterdir at 1 in Hrun.
  rewrite (lookup_store_frame _ _ _ _ _ Hst) in Hrun by now apply not_comparable_sym.
  rewrite Hq in Hrun.
  destruct (FS.lookup (key env (clone_dir env r)) (root w)) as [[d|es]|] eqn:Hsrc;
    try discriminate.
  exists es. split; [reflexivity|].
  rewrite <- (placed_all es).
  eapply (copy_items_spec es _ _ Hsep _ ∅ w2 w'); [| | |exact Hrun].
  - intros c Hin Hc. apply (Hval es eq_refl); [|exact Hc].
    apply list_elem_of_In, list_elem_of_fmap in Hin as ([c' x] & -> & Hin).
    apply elem_of_map_to_list in Hin. cbn. eauto.
  - rewrite (lookup_store_frame _ _ _ _ _ Hst) by now apply not_comparable_sym.
    congruence.
  - eapply lookup_store, Hst.
Qed.

End CopyFacts.
(** ** A whole run that succeeds *)

Section Placement.
Variable env : Collaborators.

Lemma handlers_false (e : exn) (w : World) :
  exists rep w', (match handlers e with
                  | Some h => h w
                  | None => (inl e, w)
                  end) = (inr (false, rep), w').
Proof. destruct e; cbn; eauto. Qed.

(** A run that returns [True] made the workspace, went through the
    checkout stage and step 4, and removed the workspace. *)
Lemma download_success (self : GitHubFolderDownloader) (r : Reference) (w : World) :
  parse_github_url (urlparse_path env) self = inr r ->
  (download_with_sparse_checkout env self w).1 = inr (true, DownloadCompleted) ->
  exists w0 wm w4,
    workspace_made env w = Some w0 /\
    checkout_stage env r w0 = (inr tt, wm) /\
    step4_copy env self r (clone_dir env r) wm = (inr tt, w4) /\
    root (download_with_sparse_checkout env self w).2
    = FS.remove (workspace env) (root w4).
Proof.
  intros Hp Hok.
  destruct (workspace_made env w) as [w0|] eqn:Hw.
  - rewrite (download_unfold env self r w w0 Hp Hw) in *. cbn [fst snd root] in *.
    unfold try_except in *. rewrite steps_split in *. rewrite bind_unfold in *.
    destruct (checkout_stage env r w0) as [[e|[]] wm] eqn:Hco.
    { destruct (handlers_false e wm) as (rep & w' & E). rewrite E in Hok. discriminate. }
    rewrite bind_unfold in *.
    destruct (step4_copy env self r (clone_dir env r) wm) as [[e|[]] w4] eqn:H4.
    { destruct (handlers_false e w4) as (rep & w' & E). rewrite E in Hok. discriminate. }
    exists w0, wm, w4. split; [reflexivity|]. split; [exact Hco|]. split; [exact H4|reflexivity].
  - destruct (download_no_workspace env self w) as [[e He] _].
    + intros r' Hr'. exact Hw.
    + congruence.
Qed.

Lemma proper_names_valid (es : gmap string node) (c : string) :
  proper_names (Some (Dir es)) = true -> is_Some (es !! c) -> valid_name c = true.
Proof.
  cbn. rewrite forallb_forall. intros H [x Hx]. apply H.
  apply list_elem_of_In, list_elem_of_fmap. exists (c, x). split; [reflexivity|].
  now apply elem_of_map_to_list.
Qed.

(** After a run that returns [True], the destination holds what the
    checkout had materialised, and nothing else. *)
Lemma placement (self : GitHubFolderDownloader) (r : Reference) (w : World) :
  parse_github_url (urlparse_path env) self = inr r ->
  (download_with_sparse_checkout env self w).1 = inr (true, DownloadCompleted) ->
  well_separated env self r ->
  proper_names (materialised env r w) = true ->
  FS.lookup (destination env self r) (root (download_with_sparse_checkout env self w).2)
  = materialised env r w
  /\ exists es, materialised env r w = Some (Dir es).
Proof.
  intros Hp Hok [Hws Hsd] Hnames.
  destruct (download_success self r w Hp Hok) as (w0 & wm & w4 & Hw & Hco & H4 & ->).
  rewrite lookup_remove_frame by exact Hws.
  unfold materialised, checked_out in *. rewrite Hw, Hco in *.
  destruct (String.eqb_spec (folder_path r) "") as [Hfp|Hfp].
  - destruct (step4_whole env self r wm w4 Hfp H4 Hsd) as (es & Hsrc & Hdst).
    + intros es Hsrc c Hc Hgit. rewrite Hsrc in Hnames.
      apply (proper_names_valid _ _ Hnames).
      now rewrite lookup_delete_ne by congruence.
    + rewrite Hsrc, Hdst. eauto.
  - destruct (step4_folder env self r wm w4 Hfp H4 Hsd) as (es & Hsrc & Hdst).
    rewrite Hsrc, Hdst. eauto.
Qed.

End Placement.


(** ** A missing folder *)

Section MissingFolder.
Variable env : Collaborators.

(** A relative folder path is looked for inside the clone. *)
Lemma source_in_clone (r : Reference) :
  folder_path r <> "" ->
  PurePath.anchored (PurePath.of_str (folder_path r)) = false ->
  source env r
  = key env (clone_dir env r) ++ PurePath.parts (PurePath.of_str (folder_path r)).
Proof.
  intros Hfp Hrel. unfold source. apply String.eqb_neq in Hfp. rewrite Hfp.
  unfold key, PurePath.truediv. rewrite Hrel. cbn.
  destruct (PurePath.anchored (clone_dir env r)); [reflexivity|].
  now rewrite app_assoc.
Qed.

(** X8. When the folder that step 4 looks for is not there, the run reports
    it and returns [False]; nothing is copied, and all that changes after
    the checkout is that the workspace goes. *)
Lemma missing_folder_reported (self : GitHubFolderDownloader) (r : Reference)
    (w wm : World) :
  parse_github_url (urlparse_path env) self = inr r ->
  checked_out env r w = Some wm ->
  folder_path r <> "" ->
  FS.lookup (source env r) (root wm) = None ->
  download_with_sparse_checkout env self w
  = (inr (false, NotFound (folder_not_found r)),
     mkWorld (FS.remove (workspace env) (root wm)) (trace wm)).
Proof.
  intros Hp Hco Hfp Hnone. unfold checked_out in Hco.
  destruct (workspace_made env w) as [w0|] eqn:Hw; [|discriminate].
  destruct (checkout_stage env r w0) as [[e|[]] wm'] eqn:Hst; [discriminate|].
  injection Hco as ->.
  rewrite (download_unfold env self r w w0 Hp Hw).
  unfold try_except. rewrite steps_split, bind_unfold, Hst, bind_unfold.
  unfold step4_copy. unfold source in Hnone.
  apply String.eqb_neq in Hfp. rewrite Hfp in *. cbn [negb].
  rewrite !bind_unfold. unfold Path_exists, read, FS.exists_.
  rewrite Hnone. reflexivity.
Qed.

End MissingFolder.

(** C7, where the code departs from it.  For
    [https://github.com/user/repo/tree/main//etc] the folder path is the
    absolute [/etc]; the clone has no [etc] after the checkout, yet the run
    returns [True] and the destination holds the [/etc] of the machine. *)
Theorem C7_absolute_path_escapes :
  let env := Stub.env "/tmp/tmpx1" true "" in
  let self := init "https://github.com/user/repo/tree/main//etc" Stub.downloads in
  let r := mkReference "user" "repo" "main" Branch "/etc" in
  parse_github_url Stub.urlparse self = inr r /\
  (exists wm, checked_out env r Stub.boot = Some wm /\
              FS.lookup (key env (clone_dir env r) ++ ["etc"]) (root wm) = None) /\
  (download_with_sparse_checkout env self Stub.boot).1
  = inr (true, DownloadCompleted) /\
  FS.lookup ["home"; "user"; "Downloads"; "etc"]
    (root (download_with_sparse_checkout env self Stub.boot).2)
  = FS.lookup ["etc"] Stub.disk.
Proof.
  cbv zeta. split; [reflexivity|]. split; [|split].
  - eexists. split; [vm_compute; reflexivity | vm_compute; reflexivity].
  - vm_compute. reflexivity.
  - vm_compute. reflexivity.
Qed.
(* ===================================================================== *)
(** * Further properties of the program *)
(* ===================================================================== *)

(** ** The parser: trailing slashes, segments, and what is kept *)

Lemma rstrip_snoc (c : ascii) (s : string) :
  PyStr.rstrip c (s ++ String c "") = PyStr.rstrip c s.
Proof.
  induction s as [|a s IH].
  - rewrite append_nil_l. cbn. now rewrite Ascii.eqb_refl.
  - rewrite append_cons. cbn [PyStr.rstrip]. now rewrite IH.
Qed.

Lemma append_assoc (a b c : string) : ((a ++ b) ++ c = a ++ b ++ c)%string.
Proof.
  induction a as [|x a IH]; [reflexivity|]. now rewrite !append_cons, IH.
Qed.

Lemma slashes_snoc (n : nat) : slashes (S n) = (slashes n ++ "/")%string.
Proof.
  induction n as [|n IH]; [reflexivity|].
  change (slashes (S (S n))) with (String "/" (slashes (S n))).
  rewrite IH at 1. reflexivity.
Qed.

Lemma rstrip_slashes (s : string) (n : nat) :
  PyStr.rstrip "/" (s ++ slashes n) = PyStr.rstrip "/" s.
Proof.
  induction n as [|n IH].
  - cbn [slashes]. now rewrite append_nil_r.
  - rewrite slashes_snoc, <- append_assoc, rstrip_snoc. exact IH.
Qed.

(** X1. Slashes at the end of the URL change nothing: the downloader built
    from [url] followed by any number of slashes is the one built from
    [url], and so is all it parses to. *)
Theorem trailing_slashes_ignored (up : string -> result string)
    (url : string) (n : nat) (output_dir : PurePath.t) :
  init (url ++ slashes n) output_dir = init url output_dir /\
  parse_github_url up (init (url ++ slashes n) output_dir)
  = parse_github_url up (init url output_dir).
Proof.
  assert (init (url ++ slashes n) output_dir = init url output_dir) as E
    by (unfold init; now rewrite rstrip_slashes).
  split; [exact E | now rewrite E].
Qed.

Lemma split_no_slash (c : ascii) (s : string) :
  Forall (fun seg => PyStr.char_in c seg = false) (PyStr.split c s).
Proof.
  induction s as [|a s IH]; [repeat constructor|].
  rewrite split_cons. destruct (Ascii.eqb a c) eqn:E.
  - constructor; [reflexivity | exact IH].
  - pose proof (split_not_nil c s) as Hne.
    destruct (PyStr.split c s) as [|seg segs]; [congruence|].
    inversion IH; subst. cbn [hd tl]. constructor; [|assumption].
    cbn [PyStr.char_in]. now rewrite E.
Qed.

Lemma nth_no_slash (l : list string) (i : nat) :
  Forall no_slash l -> no_slash (nth i l "").
Proof.
  intros H. revert i. induction H as [|x l Hx _ IH]; intros [|i]; cbn;
    try reflexivity; [exact Hx | apply IH].
Qed.

Lemma replace_no_slash (b : ascii) (s : string) :
  no_slash s -> PyStr.replace "/" b s = s.
Proof.
  unfold no_slash. induction s as [|a s IH]; [reflexivity|].
  cbn [PyStr.char_in PyStr.replace]. intros H.
  apply orb_false_iff in H as [Ha Hs]. now rewrite Ha, (IH Hs).
Qed.

Lemma parse_path_parts_git_ref (P : list string) (r : Reference) :
  parse_path_parts P = inr r -> git_ref r = "main" \/ git_ref r = nth 3 P "".
Proof.
  unfold parse_path_parts.
  repeat match goal with
         | |- context [if ?b then _ else _] => destruct b
         end; intros H; try discriminate; injection H as <-; cbn; auto.
Qed.

Lemma target_name_parts (r : Reference) :
  target_name r = (base_name r ++ revision_suffix r)%string.
Proof.
  unfold target_name, base_name, revision_suffix.
  destruct r as [o rp ref k p]; cbn [folder_path ref_type git_ref repo].
  destruct (String.eqb p ""), k; cbn [negb RefType_eqb];
    try reflexivity;
    destruct (String.eqb ref "main"); cbn [negb];
    now rewrite ?append_nil_r.
Qed.

Lemma parsed_no_slash (up : string -> result string)
    (self : GitHubFolderDownloader) (r : Reference) :
  parse_github_url up self = inr r ->
  no_slash (owner r) /\ no_slash (repo r) /\ no_slash (git_ref r).
Proof.
  intros H. apply parse_github_url_inv in H as (path & _ & H).
  pose proof (split_no_slash "/" (PyStr.strip "/" path)) as Hs.
  fold (path_parts_of path) in Hs.
  destruct (parse_path_parts_owner_repo _ _ H) as (_ & -> & ->).
  repeat split; try (now apply nth_no_slash).
  destruct (parse_path_parts_git_ref _ _ H) as [-> | ->];
    [reflexivity | now apply nth_no_slash].
Qed.

(** X2. No slash is ever in the owner, the repo or the revision of a
    parsed reference; so replacing slashes in the revision of a tag
    (lines 193 and 215) changes nothing, and the destination of a tag is
    the base name, an underscore and the revision as it stands. *)
Theorem parsed_segments_have_no_slash (up : string -> result string)
    (self : GitHubFolderDownloader) (r : Reference) :
  parse_github_url up self = inr r ->
  no_slash (owner r) /\ no_slash (repo r) /\ no_slash (git_ref r) /\
  PyStr.replace "/" "_" (git_ref r) = git_ref r /\
  (ref_type r = Tag -> target_name r = (base_name r ++ "_" ++ git_ref r)%string).
Proof.
  intros H. destruct (parsed_no_slash up self r H) as (Ho & Hr & Hg).
  repeat split; try assumption.
  - now apply replace_no_slash.
  - intros Hk. rewrite target_name_parts.
    unfold revision_suffix. rewrite Hk. now rewrite replace_no_slash.
Qed.

Lemma join_split (c : ascii) (s : string) :
  PyStr.join (String c "") (PyStr.split c s) = s.
Proof.
  induction s as [|a s IH]; [reflexivity|].
  rewrite split_cons. pose proof (split_not_nil c s) as Hne.
  destruct (PyStr.split c s) as [|seg segs]; [congruence|].
  destruct (Ascii.eqb_spec a c) as [->|Hac].
  - rewrite join_cons, append_nil_l, append_cons, append_nil_l. now rewrite IH.
  - cbn [hd tl]. destruct segs as [|seg' segs].
    + cbn in IH |- *. now rewrite IH.
    + rewrite join_cons in IH |- *. rewrite append_cons. now rewrite IH.
Qed.

(** X3. Nothing of the path is lost: for a [tree] or [blob] URL with a
    folder, the owner, the repo, the keyword, the revision and the folder
    path, joined with slashes, are the URL's path again, less the slashes
    at its two ends. *)
Theorem parsed_parts_rebuild_path (up : string -> result string)
    (self : GitHubFolderDownloader) (path : string) (r : Reference) :
  up (github_url self) = inr path ->
  parse_github_url up self = inr r ->
  4 < length (path_parts_of path) ->
  nth 2 (path_parts_of path) "" = "tree" \/ nth 2 (path_parts_of path) "" = "blob" ->
  PyStr.join "/" [owner r; repo r; nth 2 (path_parts_of path) ""; git_ref r;
                  folder_path r]
  = PyStr.strip "/" path.
Proof.
  intros Hup Hp Hlen Hkw. rewrite (parse_github_url_path _ _ _ Hup) in Hp.
  rewrite <- (join_split "/" (PyStr.strip "/" path)). fold (path_parts_of path).
  destruct (path_parts_of path) as [|o [|rp [|kw [|ref [|x rest]]]]];
    cbn in Hlen; try lia.
  cbn [nth] in *. rewrite (parse_path_parts_ref o rp kw ref (x :: rest) Hkw) in Hp.
  injection Hp as <-. cbn [owner repo git_ref folder_path].
  now rewrite !join_cons.
Qed.

Lemma parsed_parts_rebuild_path_witness :
  PyStr.join "/" ["binnewbs"; "arch-hyprland"; "tree";
                  "03b85877996253b0518e8a57f6249a4d2dcf4697"; ".config/waybar"]
  = "binnewbs/arch-hyprland/tree/03b85877996253b0518e8a57f6249a4d2dcf4697/.config/waybar".
Proof.
  apply (parsed_parts_rebuild_path Stub.urlparse
           (init "https://github.com/binnewbs/arch-hyprland/tree/03b85877996253b0518e8a57f6249a4d2dcf4697/.config/waybar/"
                 Stub.downloads)
           "/binnewbs/arch-hyprland/tree/03b85877996253b0518e8a57f6249a4d2dcf4697/.config/waybar"
           (mkReference "binnewbs" "arch-hyprland"
              "03b85877996253b0518e8a57f6249a4d2dcf4697" Commit ".config/waybar")).
  - reflexivity.
  - reflexivity.
  - vm_compute. lia.
  - left. reflexivity.
Defined.

Lemma parsed_segments_have_no_slash_witness :
  no_slash "v1.2.0" /\
  target_name (mkReference "user" "repo" "v1.2.0" Tag "docs/api") = "api_v1.2.0".
Proof.
  destruct (parsed_segments_have_no_slash Stub.urlparse
              (init "https://github.com/user/repo/tree/v1.2.0/docs/api" Stub.downloads)
              (mkReference "user" "repo" "v1.2.0" Tag "docs/api") eq_refl)
    as (_ & _ & Href & _ & Htag).
  split; [exact Href|]. rewrite (Htag eq_refl). reflexivity.
Defined.
(** ** The commands of a run: which, where, and when they stop *)





Lemma tail_shape_stops (r : Reference) (rp : PurePath.t)
    (pre t : list (list string * ProcResult)) :
  tail_shape r rp t ->
  Forall (fun entry =>
            entry.2 = Exited 0 \/
            (entry.1 = cat_file_cmd rp (git_ref r) /\ exists rc, entry.2 = Exited rc))
         pre ->
  stops_at_failure r rp (pre ++ t).
Proof.
  unfold stops_at_failure. intros [[p ->] | [p ->]] Hpre.
  - now rewrite List.removelast_last.
  - change [(config_cmd rp, Exited 0); (checkout_cmd rp (git_ref r), p)]
      with ([(config_cmd rp, Exited 0)] ++ [(checkout_cmd rp (git_ref r), p)]).
    rewrite app_assoc, List.removelast_last. apply Forall_app. split; [exact Hpre|].
    repeat constructor.
Qed.

Lemma run_shape_stops (r : Reference) (url : string) (rp : PurePath.t)
    (new : list (list string * ProcResult)) :
  run_shape r url rp new -> stops_at_failure r rp new.
Proof.
  unfold run_shape.
  intros [(p & _ & ->) | [(_ & t & Ht & ->) | (_ & Hs)]].
  - constructor.
  - apply (tail_shape_stops r rp [_] t Ht). repeat constructor.
  - destruct Hs as [(p & _ & ->) | [(t & Ht & ->) | [(rc & p & _ & ->) | (rc & t & _ & Ht & ->)]]].
    + unfold stops_at_failure. cbn [List.removelast]. repeat constructor.
    + apply (tail_shape_stops r rp [_; _] t Ht). repeat constructor.
    + unfold stops_at_failure. cbn [List.removelast].
      constructor; [now left|]. constructor; [|constructor].
      right. cbn. eauto.
    + apply (tail_shape_stops r rp [_; _; _] t Ht).
      constructor; [now left|]. constructor; [right; cbn; eauto|].
      repeat constructor.
Qed.

(** X5. A failed step ends the run: every command but the last one run
    exited with 0, apart from the probe for the commit, whose failure is
    followed by the fetch of the whole history. *)
Theorem failed_step_is_last (env : Collaborators)
    (self : GitHubFolderDownloader) (r : Reference) (w : World) :
  parse_github_url (urlparse_path env) self = inr r ->
  exists new,
    trace (download_with_sparse_checkout env self w).2 = trace w ++ new /\
    stops_at_failure r (clone_dir env r) new.
Proof.
  intros Hp. destruct (download_trace env self r w Hp) as (new & Et & [-> | Hs]).
  - exists []. split; [exact Et | constructor].
  - exists new. split; [exact Et | eapply run_shape_stops, Hs].
Qed.

(** ** The report of a failed command *)

Section Reports.
Variable env : Collaborators.

Lemma nfc_quiet {A} (m : M A) :
  quiet m ->
  (forall w cmd, (m w).1 <> inl (CalledProcessError cmd)) ->
  names_failed_command m.
Proof.
  intros Hq Hno w. exists []. split; [now rewrite app_nil_r, Hq|].
  intros cmd H. now destruct (Hno w cmd).
Qed.

Lemma nfc_ret {A} (a : A) : names_failed_command (mret a).
Proof. apply nfc_quiet; [apply quiet_ret | discriminate]. Qed.

Lemma nfc_subprocess_run (cmd : list string) :
  names_failed_command (subprocess_run env cmd).
Proof.
  intros w. rewrite subprocess_run_unfold. cbn [fst snd trace].
  exists [(cmd, (process env cmd (root w)).1)]. split; [reflexivity|].
  intros cmd' H. exists [].
  destruct (raised_by cmd _) as [e|] eqn:E; [|discriminate].
  injection H as ->. apply raised_by_called in E as (-> & rc & Hrc & ->).
  exists rc. now split.
Qed.

Lemma nfc_bind {A B} (m : M A) (k : A -> M B) :
  names_failed_command m -> (forall a, names_failed_command (k a)) ->
  names_failed_command (m ≫= k).
Proof.
  intros Hm Hk w. rewrite bind_unfold.
  destruct (Hm w) as (n1 & E1 & F1). destruct (m w) as [[e|a] w1]; cbn [fst snd] in *.
  - exists n1. split; [exact E1|].
    intros cmd H. injection H as ->. now apply F1.
  - destruct (Hk a w1) as (n2 & E2 & F2). exists (n1 ++ n2). split.
    + now rewrite E2, E1, app_assoc.
    + intros cmd H. destruct (F2 cmd H) as (pre & rc & -> & Hrc).
      exists (n1 ++ pre), rc. split; [now rewrite app_assoc | exact Hrc].
Qed.

Lemma nfc_try_except {A} (m : M A) (handler : exn -> option (M A)) :
  names_failed_command m ->
  (forall e h, handler e = Some h -> names_failed_command h) ->
  names_failed_command (try_except m handler).
Proof.
  intros Hm Hh w. unfold try_except.
  destruct (Hm w) as (n1 & E1 & F1). destruct (m w) as [[e|a] w1]; cbn [fst snd] in *.
  - destruct (handler e) as [h|] eqn:Eh.
    + destruct (Hh e h Eh w1) as (n2 & E2 & F2). exists (n1 ++ n2). split.
      * now rewrite E2, E1, app_assoc.
      * intros cmd H. destruct (F2 cmd H) as (pre & rc & -> & Hrc).
        exists (n1 ++ pre), rc. split; [now rewrite app_assoc | exact Hrc].
    + exists n1. split; [exact E1 | exact F1].
  - exists n1. split; [exact E1 | discriminate].
Qed.

Lemma nfc_with_root (f : node -> result node) :
  (forall n cmd, f n <> inl (CalledProcessError cmd)) ->
  names_failed_command (with_root f).
Proof.
  intros Hf. apply nfc_quiet; [apply quiet_with_root|].
  intros w cmd. unfold with_root. specialize (Hf (root w) cmd).
  destruct (f (root w)); cbn; congruence.
Qed.

Ltac no_cpe :=
  intros ? ?;
  repeat match goal with
         | |- context [match ?x with _ => _ end] => destruct x
         end; discriminate.

Lemma nfc_rmtree (p : PurePath.t) : names_failed_command (shutil_rmtree env p).
Proof. apply nfc_with_root. no_cpe. Qed.

Lemma nfc_copytree (src dst : PurePath.t) :
  names_failed_command (shutil_copytree env src dst).
Proof. apply nfc_with_root. no_cpe. Qed.

Lemma nfc_copy2 (src dst : PurePath.t) :
  names_failed_command (shutil_copy2 env src dst).
Proof. apply nfc_with_root. no_cpe. Qed.

Lemma nfc_mkdir (p : PurePath.t) : names_failed_command (Path_mkdir env p).
Proof. apply nfc_with_root. no_cpe. Qed.

Lemma nfc_write_text (p : PurePath.t) (data : string) :
  names_failed_command (write_text env p data).
Proof. apply nfc_with_root. no_cpe. Qed.

Lemma nfc_read {A} (f : node -> A) : names_failed_command (read f).
Proof. apply nfc_quiet; [apply quiet_read | discriminate]. Qed.

Lemma nfc_copy_items (rp tp : PurePath.t) (names : list string) :
  names_failed_command (copy_items env rp tp names).
Proof.
  induction names as [|c names IH]; [apply nfc_ret|].
  cbn [copy_items]. apply nfc_bind; [|intros _; exact IH].
  destruct (negb _); [|apply nfc_ret].
  apply nfc_bind; [apply nfc_read|].
  intros []; [apply nfc_copytree | apply nfc_copy2].
Qed.

Lemma nfc_step4 (self : GitHubFolderDownloader) (r : Reference) (rp : PurePath.t) :
  names_failed_command (step4_copy env self r rp).
Proof.
  unfold step4_copy. destruct (negb _).
  - apply nfc_bind; [apply nfc_read|]. intros found.
    destruct (negb found).
    + apply nfc_quiet; [apply quiet_raise | discriminate].
    + apply nfc_bind; [apply nfc_read|]. intros there.
      apply nfc_bind; [destruct there; [apply nfc_rmtree | apply nfc_ret]|].
      intros _. apply nfc_copytree.
  - apply nfc_bind; [apply nfc_read|]. intros there.
    apply nfc_bind; [destruct there; [apply nfc_rmtree | apply nfc_ret]|].
    intros _. apply nfc_bind; [apply nfc_mkdir|]. intros _.
    apply nfc_bind; [|intros; apply nfc_copy_items].
    apply nfc_quiet.
    + intros w. unfold Path_iterdir. destruct (FS.lookup _ _) as [[]|]; reflexivity.
    + intros w cmd. unfold Path_iterdir. destruct (FS.lookup _ _) as [[]|]; discriminate.
Qed.

Lemma nfc_steps (self : GitHubFolderDownloader) (r : Reference)
    (url : string) (rp : PurePath.t) :
  names_failed_command (steps env self r url rp).
Proof.
  unfold steps.
  apply nfc_bind; [apply nfc_subprocess_run|]. intros _.
  apply nfc_bind.
  { unfold step1b_fetch_commit. destruct (RefType_eqb _ _); [|apply nfc_ret].
    apply nfc_try_except; [apply nfc_subprocess_run|].
    intros e h. destruct e; try discriminate.
    intros H. injection H as <-. apply nfc_subprocess_run. }
  intros _. apply nfc_bind.
  { unfold step2_sparse. apply nfc_bind; [apply nfc_subprocess_run|].
    intros _. apply nfc_write_text. }
  intros _. apply nfc_bind; [apply nfc_subprocess_run|]. intros _.
  apply nfc_bind; [apply nfc_step4|]. intros _. apply nfc_ret.
Qed.

End Reports.

Lemma steps_value (env : Collaborators) (self : GitHubFolderDownloader)
    (r : Reference) (w w' : World) (a : bool * Report) :
  steps env self r (clone_url_of r) (clone_dir env r) w = (inr a, w') ->
  a = (true, DownloadCompleted).
Proof.
  rewrite steps_split, bind_unfold.
  destruct (checkout_stage env r w) as [[e|[]] w1]; [discriminate|].
  rewrite bind_unfold.
  destruct (step4_copy env self r (clone_dir env r) w1) as [[e|[]] w2];
    [discriminate|].
  unfold mret, M_ret. intros H. now injection H as <-.
Qed.

(** X6. The command a run reports as failed is the one it ran last, and
    that command exited with a non-zero code. *)
Theorem reported_command_failed_last (env : Collaborators)
    (self : GitHubFolderDownloader) (w : World) (cmd : list string) :
  (download_with_sparse_checkout env self w).1
  = inr (false, GitCommandFailed cmd) ->
  exists pre rc,
    trace (download_with_sparse_checkout env self w).2
    = trace w ++ pre ++ [(cmd, Exited rc)] /\
    rc <> 0%Z.
Proof.
  intros Hres.
  destruct (parse_github_url (urlparse_path env) self) as [e|r] eqn:Hp.
  { destruct (download_no_workspace env self w) as [[e' He'] _]; [|congruence].
    intros r Hr. congruence. }
  destruct (workspace_made env w) as [w0|] eqn:Hw.
  2:{ destruct (download_no_workspace env self w) as [[e' He'] _]; [|congruence].
      intros r' Hr'. exact Hw. }
  rewrite (download_unfold env self r w w0 Hp Hw) in *. cbn [fst snd trace] in *.
  assert (trace w0 = trace w) as Ew0.
  { unfold workspace_made in Hw.
    destruct (FS.lookup (FS.parent _) _) as [[?|?]|]; try discriminate.
    destruct (FS.lookup _ _); [discriminate|].
    destruct (FS.store _ _ _); [|discriminate]. now injection Hw as <-. }
  rewrite try_except_handlers_trace.
  destruct (nfc_steps env self r (clone_url_of r) (clone_dir env r) w0)
    as (new & Et & Hf).
  unfold try_except in Hres.
  destruct (steps env self r (clone_url_of r) (clone_dir env r) w0) as [[e|a] w1]
    eqn:Est; cbn [fst snd] in *.
  - destruct e as [m|cmd'|m|m]; cbn in Hres; try discriminate.
    injection Hres as ->.
    destruct (Hf cmd eq_refl) as (pre & rc & -> & Hrc).
    exists pre, rc. split; [now rewrite Et, Ew0 | exact Hrc].
  - apply steps_value in Est as ->. discriminate.
Qed.
(** ** The pattern file, a file in place of a folder, the destination *)

Section MorePlacement.
Variable env : Collaborators.

Lemma patterns_content (folder_path : string) :
  String.concat "" (List.map (fun pattern : string => (pattern ++ newline)%string)
                             (sparse_patterns folder_path))
  = sparse_file_content folder_path.
Proof.
  unfold sparse_patterns, sparse_file_content.
  destruct (String.eqb folder_path ""); cbn [negb List.map String.concat].
  - reflexivity.
  - now rewrite append_nil_l, !append_assoc.
Qed.

(** X7. When step 2 succeeds, the pattern file [.git/info/sparse-checkout]
    of the clone holds one line [*] for a whole repository, and for a
    folder the two lines [<folder>] and [<folder>/**]. *)
Theorem sparse_file_written (r : Reference) (rp : PurePath.t) (w w' : World) :
  step2_sparse env r rp w = (inr tt, w') ->
  FS.lookup (key env (rp // ".git" // "info" // "sparse-checkout")) (root w')
  = Some (File (sparse_file_content (folder_path r))).
Proof.
  unfold step2_sparse. rewrite bind_unfold.
  destruct (subprocess_run env (config_cmd rp) w) as [[e|[]] w1]; [discriminate|].
  intros H. unfold write_text in H. apply with_root_ok in H as [H _]. cbv beta in H.
  rewrite patterns_content in H.
  destruct (FS.lookup (FS.parent _) (root w1)) as [[?|?]|]; try discriminate.
  destruct (FS.lookup _ (root w1)) as [[?|?]|]; try discriminate;
    (destruct (FS.store _ _ (root w1)) as [r1|] eqn:Est; [|discriminate]);
    injection H as <-; eapply lookup_store, Est.
Qed.

(** X9. When what the URL names is a file and not a folder, as the URLs
    of the [blob] form do, the run returns [False] with an unexpected
    error; a directory that was at the destination has been removed all
    the same. *)
Theorem file_in_place_of_folder (self : GitHubFolderDownloader) (r : Reference)
    (w wm : World) (data : string) (old : gmap string node) :
  parse_github_url (urlparse_path env) self = inr r ->
  checked_out env r w = Some wm ->
  folder_path r <> "" ->
  FS.lookup (source env r) (root wm) = Some (File data) ->
  FS.lookup (destination env self r) (root wm) = Some (Dir old) ->
  well_separated env self r ->
  (download_with_sparse_checkout env self w).1
  = inr (false, UnexpectedError (OSError "Not a directory")) /\
  FS.lookup (destination env self r)
    (root (download_with_sparse_checkout env self w).2) = None.
Proof.
  intros Hp Hco Hfp Hsrc Hdst [Hws Hsd]. unfold checked_out in Hco.
  destruct (workspace_made env w) as [w0|] eqn:Hw; [|discriminate].
  destruct (checkout_stage env r w0) as [[e|[]] wm'] eqn:Hst; [discriminate|].
  injection Hco as ->.
  rewrite (download_unfold env self r w w0 Hp Hw). cbn [fst snd root].
  unfold try_except. rewrite steps_split, bind_unfold, Hst, bind_unfold.
  assert (step4_copy env self r (clone_dir env r) wm
          = (inl (OSError "Not a directory"),
             mkWorld (FS.remove (destination env self r) (root wm)) (trace wm)))
    as ->.
  { unfold source, destination in *.
    apply String.eqb_neq in Hfp. rewrite Hfp in *.
    unfold step4_copy, mbind, M_bind, Path_exists, read, FS.exists_,
      shutil_rmtree, shutil_copytree, with_root, mret, M_ret.
    rewrite Hfp. cbn [negb root trace]. rewrite Hsrc. cbn [negb].
    rewrite Hdst. cbv beta iota zeta. cbn [root trace].
    rewrite Hdst. cbv beta iota zeta. cbn [root trace].
    rewrite lookup_remove_frame by (now apply not_comparable_sym).
    now rewrite Hsrc. }
  cbn [handlers mret M_ret fst snd root]. split; [reflexivity|].
  rewrite lookup_remove_frame by exact Hws.
  apply lookup_remove. eapply not_comparable_nil, Hws.
Qed.

Lemma char_in_app (c : ascii) (a b : string) :
  PyStr.char_in c (a ++ b) = PyStr.char_in c a || PyStr.char_in c b.
Proof.
  induction a as [|x a IH]; [reflexivity|].
  rewrite append_cons. cbn [PyStr.char_in]. now rewrite IH, orb_assoc.
Qed.

Lemma take_no_slash (n : nat) (s : string) : no_slash s -> no_slash (PyStr.take n s).
Proof.
  unfold no_slash. revert s. induction n as [|n IH]; intros [|a s]; try reflexivity.
  cbn [PyStr.take PyStr.char_in]. intros H. apply orb_false_iff in H as [Ha Hs].
  now rewrite Ha, (IH s Hs).
Qed.

Lemma last_Forall (P : string -> Prop) (l : list string) (d : string) :
  P d -> Forall P l -> P (List.last l d).
Proof.
  intros Hd H. induction H as [|x l Hx Hl IH]; [exact Hd|].
  destruct l; [exact Hx | exact IH].
Qed.

Lemma Forall_filter_keeps (P : string -> Prop) (f : string -> bool)
    (l : list string) :
  Forall P l -> Forall P (List.filter f l).
Proof.
  rewrite !List.Forall_forall. intros H x Hx.
  apply List.filter_In in Hx as [Hx _]. now apply H.
Qed.

Lemma name_no_slash (s : string) :
  no_slash (PurePath.name (PurePath.of_str s)).
Proof.
  unfold PurePath.name, PurePath.of_str. cbn [PurePath.parts].
  apply last_Forall; [reflexivity|].
  apply Forall_filter_keeps, split_no_slash.
Qed.

Lemma target_name_no_slash (r : Reference) :
  no_slash (repo r) -> no_slash (git_ref r) -> no_slash (target_name r).
Proof.
  intros Hrepo Href. rewrite target_name_parts. unfold no_slash.
  rewrite char_in_app. apply orb_false_iff. split.
  - unfold base_name. destruct (String.eqb (folder_path r) "");
      [exact Hrepo | apply name_no_slash].
  - unfold revision_suffix. destruct (ref_type r).
    + destruct (String.eqb (git_ref r) "main"); [reflexivity|].
      rewrite char_in_app. now rewrite Href.
    + rewrite char_in_app. now rewrite (take_no_slash 8 _ Href).
    + rewrite char_in_app. now rewrite (replace_no_slash "_" _ Href), Href.
Qed.

Lemma of_str_no_slash (s : string) :
  no_slash s ->
  PurePath.of_str s
  = PurePath.mk false
      (if String.eqb s "" || String.eqb s "." then [] else [s]).
Proof.
  intros Hs. unfold PurePath.of_str. f_equal.
  - unfold PyStr.startswith. destruct s as [|a s]; [reflexivity|].
    unfold no_slash in Hs. cbn [PyStr.char_in] in Hs.
    apply orb_false_iff in Hs as [Ha _]. apply Ascii.eqb_neq in Ha.
    change (String.prefix "/" (String a s))
      with (if ascii_dec "/" a then String.prefix "" s else false).
    destruct (ascii_dec "/" a); congruence.
  - rewrite (split_no_sep _ _ Hs). cbn [List.filter].
    destruct (String.eqb s ""), (String.eqb s "."); reflexivity.
Qed.

(** X10. The destination of a parsed reference is named without a slash.
    Unless that name is [..], which stands for the parent of the output
    directory, the destination is the output directory followed by one
    proper file name, or the output directory itself when the name comes
    out empty or as a dot. *)
Theorem destination_in_output_dir (self : GitHubFolderDownloader) (r : Reference) :
  parse_github_url (urlparse_path env) self = inr r ->
  target_name r <> ".." ->
  no_slash (target_name r) /\
  exists tail,
    destination env self r = key env (output_dir self) ++ tail /\
    tail = (if String.eqb (target_name r) "" || String.eqb (target_name r) "."
            then [] else [target_name r]) /\
    Forall (fun c => valid_name c = true) tail /\
    resolved tail = true.
Proof.
  intros Hp Hup.
  destruct (parsed_no_slash _ _ _ Hp) as (_ & Hrepo & Href).
  pose proof (target_name_no_slash r Hrepo Href) as Hn.
  split; [exact Hn|]. eexists. split; [|split; [reflexivity|]].
  - unfold destination. rewrite (of_str_no_slash _ Hn).
    unfold key, PurePath.truediv. cbn [PurePath.anchored PurePath.parts].
    destruct (PurePath.anchored (output_dir self)); [reflexivity|].
    now rewrite app_assoc.
  - destruct (String.eqb_spec (target_name r) "") as [E1|E1]; cbn [orb];
      [split; [constructor | reflexivity]|].
    destruct (String.eqb_spec (target_name r) ".") as [E2|E2];
      [split; [constructor | reflexivity]|].
    split.
    + constructor; [|constructor]. unfold valid_name.
      apply String.eqb_neq in E1, E2. rewrite E1, E2. unfold no_slash in Hn.
      now rewrite Hn.
    + cbn. apply String.eqb_neq in Hup. now rewrite Hup.
Qed.

End MorePlacement.

(** ** [check_git_available], [download] and [main] *)

Section Main.
Variable env : Collaborators.

Lemma check_git_available_unfold (w : World) :
  check_git_available env w
  = (match (process env ["git"; "--version"] (root w)).1 with
     | Exited rc => inr (rc =? 0)%Z
     | NoSuchProgram _ => inr false
     | LaunchFailed msg => inl (OSError msg)
     end,
     mkWorld (process env ["git"; "--version"] (root w)).2
             (trace w ++ [(["git"; "--version"],
                           (process env ["git"; "--version"] (root w)).1)])).
Proof.
  unfold check_git_available, try_except. rewrite bind_unfold, subprocess_run_unfold.
  destruct (process env ["git"; "--version"] (root w)) as [[rc|m|m] rt];
    cbn [fst snd raised_by]; [destruct (rc =? 0)%Z|..]; reflexivity.
Qed.


Lemma download_true_completed (self : GitHubFolderDownloader) (w : World)
    (rep : Report) :
  (download_with_sparse_checkout env self w).1 = inr (true, rep) ->
  rep = DownloadCompleted
  /\ exists r, parse_github_url (urlparse_path env) self = inr r.
Proof.
  intros Hres.
  destruct (parse_github_url (urlparse_path env) self) as [e|r] eqn:Hp.
  { destruct (download_no_workspace env self w) as [[e' He'] _]; [|congruence].
    intros r Hr. congruence. }
  split; [|eauto].
  destruct (workspace_made env w) as [w0|] eqn:Hw.
  2:{ destruct (download_no_workspace env self w) as [[e' He'] _]; [|congruence].
      intros r' Hr'. exact Hw. }
  rewrite (download_unfold env self r w w0 Hp Hw) in Hres. cbn [fst] in Hres.
  unfold try_except in Hres.
  destruct (steps env self r (clone_url_of r) (clone_dir env r) w0) as [[e|a] w1]
    eqn:Est.
  - destruct (handlers_false e w1) as (rep' & w' & E). rewrite E in Hres. discriminate.
  - apply steps_value in Est as ->. cbn in Hres. congruence.
Qed.

(** X12. When [argparse] ends the program, after a usage error or
    [-h], [main] exits with the code [argparse] chose and nothing is
    done.  With the arguments accepted, [main] exits with 0 or 1; it exits
    with 0 only for a URL that holds [github.com], with a working git,
    and after a sparse checkout that returned [True]; then the destination
    holds what the checkout materialised. *)
Theorem main_exit_code (args : Parsed) (w : World) :
  match args with
  | SystemExit code => main env args w = (code, w)
  | Namespace url out =>
      ((main env args w).1 = 0%Z \/ (main env args w).1 = 1%Z) /\
      ((main env args w).1 = 0%Z ->
       str_contains "github.com" url = true /\
       (process env ["git"; "--version"] (root w)).1 = Exited 0 /\
       exists r,
         parse_github_url (urlparse_path env) (init url out) = inr r /\
         download_with_sparse_checkout env (init url out)
           (prepared env (init url out) w)
         = (inr (true, DownloadCompleted), (main env args w).2) /\
         (well_separated env (init url out) r ->
          proper_names (materialised env r (prepared env (init url out) w)) = true ->
          FS.lookup (destination env (init url out) r) (root (main env args w).2)
          = materialised env r (prepared env (init url out) w)))
  end.
Proof.
  destruct args as [code|url out]; [reflexivity|].
  unfold main, prepared. destruct (str_contains "github.com" url); cbn [negb].
  2:{ split; [now right | discriminate]. }
  unfold download. rewrite bind_unfold, check_git_available_unfold.
  set (self := init url out).
  destruct (process env ["git"; "--version"] (root w)) as [[rc|m|m] rt];
    cbn [fst snd]; try (split; [now right | discriminate]).
  destruct (Z.eqb_spec rc 0) as [->|Hrc]; cbn [negb];
    [|split; [now right | discriminate]].
  rewrite bind_unfold.
  destruct (Path_mkdir env (output_dir self) _) as [[e|[]] w2];
    cbn [fst snd]; [split; [now right | discriminate]|].
  rewrite bind_unfold.
  destruct (download_with_sparse_checkout env self w2) as [[e|[b rep]] w3] eqn:Erun;
    cbn [fst snd mret M_ret]; [split; [now right | discriminate]|].
  destruct b; [|split; [now right | discriminate]].
  split; [now left|]. intros _.
  split; [reflexivity|]. split; [reflexivity|].
  destruct (download_true_completed self w2 rep) as [-> [r Hp]];
    [now rewrite Erun|].
  exists r. split; [exact Hp|]. split; [reflexivity|].
  intros Hsep Hnames.
  destruct (placement env self r w2 Hp) as [H _]; try assumption.
  - now rewrite Erun.
  - now rewrite Erun in H.
Qed.

End Main.
(** ** What a run leaves alone *)

Lemma not_comparable_app (a x q : FS.key) :
  ~ FS.comparable a q -> ~ FS.comparable (a ++ x) q.
Proof.
  unfold FS.comparable. intros H [P|P]; apply H.
  - left. etransitivity; [|exact P]. now apply prefix_app_r.
  - destruct (prefix_weak_total a q (a ++ x)) as [?|?]; auto.
    now apply prefix_app_r.
Qed.

Section Frame.
Variable env : Collaborators.
Variable q : FS.key.

Lemma leaves_ret {A} (a : A) : leaves q (mret a).
Proof. intros w. reflexivity. Qed.

Lemma leaves_raise {A} (e : exn) : leaves q (raise (A := A) e).
Proof. intros w. reflexivity. Qed.

Lemma leaves_read {A} (f : node -> A) : leaves q (read f).
Proof. intros w. reflexivity. Qed.

Lemma leaves_bind {A B} (m : M A) (k : A -> M B) :
  leaves q m -> (forall a, leaves q (k a)) -> leaves q (m ≫= k).
Proof.
  intros Hm Hk w. rewrite bind_unfold. specialize (Hm w).
  destruct (m w) as [[e|a] w1]; cbn [snd] in *; [exact Hm|].
  now rewrite Hk.
Qed.

Lemma leaves_try_except {A} (m : M A) (handler : exn -> option (M A)) :
  leaves q m -> (forall e h, handler e = Some h -> leaves q h) ->
  leaves q (try_except m handler).
Proof.
  intros Hm Hh w. unfold try_except. specialize (Hm w).
  destruct (m w) as [[e|a] w1]; cbn [snd] in *; [|exact Hm].
  destruct (handler e) as [h|] eqn:E; [|exact Hm].
  now rewrite (Hh e h E).
Qed.

Lemma leaves_subprocess_run (cmd : list string) :
  (forall n, FS.lookup q (process env cmd n).2 = FS.lookup q n) ->
  leaves q (subprocess_run env cmd).
Proof.
  intros Hcmd w. rewrite subprocess_run_unfold. cbn [snd root]. apply Hcmd.
Qed.

Lemma leaves_with_root (f : node -> result node) :
  (forall n n', f n = inr n' -> FS.lookup q n' = FS.lookup q n) ->
  leaves q (with_root f).
Proof.
  intros Hf w. unfold with_root. destruct (f (root w)) as [e|n'] eqn:E; [reflexivity|].
  cbn [snd root]. now apply Hf.
Qed.

Lemma leaves_rmtree (p : PurePath.t) :
  ~ FS.comparable (key env p) q -> leaves q (shutil_rmtree env p).
Proof.
  intros Hp. apply leaves_with_root. intros n n'.
  destruct (FS.lookup (key env p) n) as [[?|?]|]; try discriminate.
  intros H. injection H as <-. now apply lookup_remove_frame.
Qed.

Lemma leaves_store (k : FS.key) (x : node) (n n' : node) :
  ~ FS.comparable k q ->
  match FS.store k x n with
  | Some r' => inr r'
  | None => inl (OSError "Not a directory")
  end = inr n' ->
  FS.lookup q n' = FS.lookup q n.
Proof.
  intros Hk. destruct (FS.store k x n) as [r'|] eqn:E; [|discriminate].
  intros H. injection H as <-. eapply lookup_store_frame; eassumption.
Qed.

Lemma leaves_copytree (src dst : PurePath.t) :
  ~ FS.comparable (key env dst) q -> leaves q (shutil_copytree env src dst).
Proof.
  intros Hp. apply leaves_with_root. intros n n'.
  destruct (FS.lookup (key env src) n) as [[?|?]|]; try discriminate.
  destruct (FS.exists_ _ _); [discriminate|]. now apply leaves_store.
Qed.

Lemma leaves_copy2 (src dst : PurePath.t) :
  ~ FS.comparable (key env dst) q -> leaves q (shutil_copy2 env src dst).
Proof.
  intros Hp. apply leaves_with_root. intros n n'.
  destruct (FS.lookup (key env src) n) as [[?|?]|]; try discriminate.
  destruct (FS.lookup (FS.parent _) n) as [[?|?]|]; try discriminate.
  destruct (FS.lookup (key env dst) n) as [[?|?]|]; try discriminate;
    now apply leaves_store.
Qed.

Lemma leaves_mkdir (p : PurePath.t) :
  ~ FS.comparable (key env p) q -> leaves q (Path_mkdir env p).
Proof.
  intros Hp. apply leaves_with_root. intros n n'.
  destruct (FS.lookup (key env p) n) as [[?|?]|]; try discriminate.
  - intros H. now injection H as <-.
  - now apply leaves_store.
Qed.

Lemma leaves_write_text (p : PurePath.t) (data : string) :
  ~ FS.comparable (key env p) q -> leaves q (write_text env p data).
Proof.
  intros Hp. apply leaves_with_root. intros n n'.
  destruct (FS.lookup (FS.parent _) n) as [[?|?]|]; try discriminate.
  destruct (FS.lookup (key env p) n) as [[?|?]|]; try discriminate;
    now apply leaves_store.
Qed.

Lemma leaves_iterdir (p : PurePath.t) : leaves q (Path_iterdir env p).
Proof.
  intros w. unfold Path_iterdir.
  destruct (FS.lookup (key env p) (root w)) as [[?|?]|]; reflexivity.
Qed.

Lemma leaves_copy_items (rp tp : PurePath.t) (names : list string) :
  ~ FS.comparable (key env tp) q ->
  (forall c, In c names -> c <> ".git" -> valid_name c = true) ->
  leaves q (copy_items env rp tp names).
Proof.
  intros Htp. induction names as [|c names IH]; intros Hval; [apply leaves_ret|].
  cbn [copy_items]. apply leaves_bind.
  - rewrite name_child. destruct (String.eqb_spec c ".git") as [->|Hc]; cbn [negb];
      [apply leaves_ret|].
    assert (~ FS.comparable (key env (tp // c)) q) as Hdst.
    { rewrite key_truediv_valid by (apply Hval; [now left | exact Hc]).
      now apply not_comparable_app. }
    apply leaves_bind; [apply leaves_read|].
    intros []; [now apply leaves_copytree | now apply leaves_copy2].
  - intros _. apply IH. intros c' Hin. apply Hval. now right.
Qed.

(** The guard of step 4 that clears the destination. *)
Lemma leaves_clear_target (tp : PurePath.t) :
  ~ FS.comparable (key env tp) q ->
  leaves q (there ← Path_exists env tp;
            if there : bool then shutil_rmtree env tp else mret tt).
Proof.
  intros Htp. apply leaves_bind; [apply leaves_read|].
  intros []; [now apply leaves_rmtree | apply leaves_ret].
Qed.

End Frame.

Section RunFrame.
Variable env : Collaborators.
Variable q : FS.key.
Variable r : Reference.

(** None of the program's commands changes the entry at [q]. *)
Hypothesis process_leaves :
  forall cmd n,
    known_command r (clone_url_of r) (clone_dir env r) cmd ->
    FS.lookup q (process env cmd n).2 = FS.lookup q n.

Lemma leaves_known (cmd : list string) :
  known_command r (clone_url_of r) (clone_dir env r) cmd ->
  leaves q (subprocess_run env cmd).
Proof. intros H. apply leaves_subprocess_run. intros n. now apply process_leaves. Qed.

(** The clone lies in the workspace. *)
Lemma clone_dir_in_workspace :
  no_slash (repo r) ->
  exists x, key env (clone_dir env r) = workspace env ++ x.
Proof.
  intros Hr. unfold clone_dir, workspace. rewrite (of_str_no_slash _ Hr).
  eexists. unfold key, PurePath.truediv. cbn [PurePath.anchored PurePath.parts].
  destruct (PurePath.anchored (PurePath.of_str (mkdtemp_name env)));
    [reflexivity | now rewrite app_assoc].
Qed.

Lemma leaves_checkout_stage :
  no_slash (repo r) ->
  ~ FS.comparable (workspace env) q ->
  leaves q (checkout_stage env r).
Proof.
  intros Hr Hws. destruct (clone_dir_in_workspace Hr) as [x Hx].
  unfold checkout_stage.
  apply leaves_bind; [apply leaves_known; unfold known_command; tauto|]. intros _.
  apply leaves_bind.
  { unfold step1b_fetch_commit. destruct (RefType_eqb _ _); [|apply leaves_ret].
    apply leaves_try_except; [apply leaves_known; unfold known_command; tauto|].
    intros e h. destruct e; try discriminate.
    intros H. injection H as <-. apply leaves_known; unfold known_command; tauto. }
  intros _.
  apply leaves_bind; [|intros _; apply leaves_known; unfold known_command; tauto].
  unfold step2_sparse.
  apply leaves_bind; [apply leaves_known; unfold known_command; tauto|].
  intros _. apply leaves_write_text.
  rewrite !key_truediv_valid by reflexivity. rewrite Hx, <- !app_assoc.
  now apply not_comparable_app.
Qed.

Lemma leaves_step4_folder (self : GitHubFolderDownloader) :
  folder_path r <> "" ->
  ~ FS.comparable (destination env self r) q ->
  leaves q (step4_copy env self r (clone_dir env r)).
Proof.
  intros Hfp Hd. unfold step4_copy, destination in *.
  apply String.eqb_neq in Hfp. rewrite Hfp. cbn [negb].
  apply leaves_bind; [apply leaves_read|]. intros found.
  destruct (negb found); [apply leaves_raise|].
  apply leaves_bind; [apply leaves_read|]. intros there.
  apply leaves_bind; [destruct there; [now apply leaves_rmtree | apply leaves_ret]|].
  intros _. now apply leaves_copytree.
Qed.

(** Step 4 for a whole repository, from a world whose clone has proper
    file names. *)
Lemma leaves_step4_whole (self : GitHubFolderDownloader) (w : World) :
  folder_path r = "" ->
  ~ FS.comparable (destination env self r) q ->
  ~ FS.comparable (source env r) (destination env self r) ->
  (forall es, FS.lookup (source env r) (root w) = Some (Dir es) ->
              forall c, is_Some (es !! c) -> c <> ".git" -> valid_name c = true) ->
  FS.lookup q (root (step4_copy env self r (clone_dir env r) w).2)
  = FS.lookup q (root w).
Proof.
  intros Hfp Hd Hsd Hval. unfold step4_copy, source, destination in *.
  rewrite Hfp in *. cbn [String.eqb negb] in *.
  rewrite <- bind_assoc, bind_unfold.
  pose proof (leaves_clear_target env q _ Hd w) as Hq1.
  pose proof (leaves_clear_target env _ _ (not_comparable_sym _ _ Hsd) w) as Hs1.
  match goal with
  | |- context [(?m ≫= ?k) w] => destruct ((m ≫= k) w) as [[e|[]] w1]
  end; cbn [snd] in *; [exact Hq1|].
  rewrite bind_unfold.
  pose proof (leaves_mkdir env q _ Hd w1) as Hq2.
  pose proof (leaves_mkdir env _ _ (not_comparable_sym _ _ Hsd) w1) as Hs2.
  destruct (Path_mkdir env _ w1) as [[e|[]] w2]; cbn [snd] in *; [congruence|].
  rewrite bind_unfold. unfold Path_iterdir at 1.
  destruct (FS.lookup (key env (clone_dir env r)) (root w2)) as [[d|es]|] eqn:Els;
    cbn [snd]; try congruence.
  rewrite (leaves_copy_items env q); [congruence | exact Hd |].
  intros c Hin Hc. apply (Hval es); [congruence | | exact Hc].
  apply list_elem_of_In, list_elem_of_fmap in Hin as ([c' x] & -> & Hin).
  apply elem_of_map_to_list in Hin. cbn. eauto.
Qed.

End RunFrame.

(** X13. A run touches nothing but its scratch workspace and its
    destination: every other entry of the file system, one that lies
    neither in nor around these two, is after the run what it was before,
    however the run ends.  This is for a clone, a source and a destination
    whose paths hold no [..], provided the program's [git] commands
    themselves leave that entry alone and, for a whole repository, the
    names of the clone are proper file names. *)
Theorem run_leaves_rest_alone (env : Collaborators)
    (self : GitHubFolderDownloader) (r : Reference) (q : FS.key) (w : World) :
  parse_github_url (urlparse_path env) self = inr r ->
  resolved (key env (clone_dir env r)) = true ->
  resolved (source env r) = true ->
  resolved (destination env self r) = true ->
  well_separated env self r ->
  proper_names (materialised env r w) = true ->
  ~ FS.comparable (workspace env) q ->
  ~ FS.comparable (destination env self r) q ->
  (forall cmd n,
     known_command r (clone_url_of r) (clone_dir env r) cmd ->
     FS.lookup q (process env cmd n).2 = FS.lookup q n) ->
  FS.lookup q (root (download_with_sparse_checkout env self w).2)
  = FS.lookup q (root w).
Proof.
  intros Hp _ _ _ [Hwd Hsd] Hnames Hws Hd Hgit.
  destruct (workspace_made env w) as [w0|] eqn:Ew.
  2:{ destruct (download_no_workspace env self w) as [_ ->]; [|reflexivity].
      intros r' Hr'. exact Ew. }
  rewrite (download_unfold env self r w w0 Hp Ew). cbn [snd root].
  rewrite (lookup_remove_frame _ _ _ Hws).
  assert (FS.lookup q (root w0) = FS.lookup q (root w)) as <-.
  { unfold workspace_made in Ew.
    destruct (FS.lookup (FS.parent _) (root w)) as [[d|es]|]; try discriminate.
    destruct (FS.lookup (workspace env) (root w)); [discriminate|].
    destruct (FS.store _ _ (root w)) as [r0|] eqn:Es; [|discriminate].
    injection Ew as <-. cbn [root]. exact (lookup_store_frame _ _ _ _ _ Es Hws). }
  assert (FS.lookup q (root (steps env self r (clone_url_of r) (clone_dir env r) w0).2)
          = FS.lookup q (root w0)) as Hsteps.
  { rewrite steps_split, bind_unfold.
    destruct (parsed_no_slash _ _ _ Hp) as (_ & Hrepo & _).
    pose proof (leaves_checkout_stage env q r Hgit Hrepo Hws w0) as Hc.
    destruct (checkout_stage env r w0) as [[e|[]] wm] eqn:Ec; cbn [snd] in Hc;
      [exact Hc|].
    rewrite bind_unfold. rewrite <- Hc.
    assert (FS.lookup q (root (step4_copy env self r (clone_dir env r) wm).2)
            = FS.lookup q (root wm)) as H4.
    { destruct (String.eqb_spec (folder_path r) "") as [Hfp|Hfp].
      - apply (leaves_step4_whole env q r self wm Hfp Hd).
        + exact Hsd.
        + intros es Hes c Hc' Hgitdir.
          unfold materialised, checked_out in Hnames.
          rewrite Ew, Ec, Hes in Hnames. unfold source in Hes.
          apply String.eqb_eq in Hfp. rewrite Hfp in Hnames.
          apply (proper_names_valid _ c Hnames).
          now rewrite lookup_delete_ne.
      - now apply leaves_step4_folder. }
    destruct (step4_copy env self r (clone_dir env r) wm) as [[e|[]] w4];
      cbn [snd] in *; exact H4. }
  unfold try_except.
  destruct (steps env self r (clone_url_of r) (clone_dir env r) w0) as [[e|a] w1];
    cbn [snd] in *; [|exact Hsteps].
  destruct e; cbn; exact Hsteps.
Qed.

(** ** A whole repository *)

(** X14. A whole repository is copied without its [.git]: after a run
    that returns [True] for a URL without a folder, the destination has
    no [.git], and every other entry of the clone, as the checkout left
    it, is at the destination under its own name. *)
Theorem git_dir_not_copied (env : Collaborators) (self : GitHubFolderDownloader)
    (r : Reference) (w : World) :
  parse_github_url (urlparse_path env) self = inr r ->
  folder_path r = "" ->
  (download_with_sparse_checkout env self w).1 = inr (true, DownloadCompleted) ->
  well_separated env self r ->
  proper_names (materialised env r w) = true ->
  exists wm,
    checked_out env r w = Some wm /\
    FS.lookup (destination env self r ++ [".git"])
      (root (download_with_sparse_checkout env self w).2) = None /\
    forall c, c <> ".git" ->
      FS.lookup (destination env self r ++ [c])
        (root (download_with_sparse_checkout env self w).2)
      = FS.lookup (key env (clone_dir env r) ++ [c]) (root wm).
Proof.
  intros Hp Hfp Hok Hsep Hnames.
  destruct (placement env self r w Hp Hok Hsep Hnames) as [Hdst [es' Hm]].
  rewrite Hm in Hdst. unfold materialised in Hm.
  destruct (checked_out env r w) as [wm|]; [|discriminate].
  exists wm. split; [reflexivity|].
  unfold source in Hm. apply String.eqb_eq in Hfp. rewrite Hfp in Hm.
  destruct (FS.lookup (key env (clone_dir env r)) (root wm)) as [[d|es]|] eqn:Hsrc;
    try discriminate.
  injection Hm as <-. split.
  - rewrite lookup_app, Hdst. cbn. now rewrite lookup_delete_eq.
  - intros c Hc. rewrite !lookup_app, Hdst, Hsrc. cbn.
    now rewrite lookup_delete_ne by congruence.
Qed.
(** ** The theorems at work on concrete runs *)

Lemma C1_revision_kind_witness :
  classify "v1.2.0" = Tag /\
  ref_type (mkReference "user" "repo" "develop" Branch "src") = classify "develop".
Proof.
  destruct C1_revision_kind as [Hkind Hparse]. split.
  - apply (Hkind "v1.2.0"). split.
    + intros [Hlen _]. vm_compute in Hlen. discriminate.
    + right. now exists "1.2.0".
  - apply (Hparse Stub.urlparse
             (init "https://github.com/user/repo/tree/develop/src" Stub.downloads)
             (mkReference "user" "repo" "develop" Branch "src")).
    reflexivity.
Defined.

Lemma C3_history_extension_witness :
  let env := Stub.env "/tmp/tmpx1" false "" in
  let self :=
    init "https://github.com/binnewbs/arch-hyprland/tree/03b85877996253b0518e8a57f6249a4d2dcf4697"
         Stub.downloads in
  (download_with_sparse_checkout env self Stub.boot).1
  = inr (true, DownloadCompleted) /\
  In ["git"; "-C"; "/tmp/tmpx1/arch-hyprland"; "fetch"; "--unshallow"]
     (trace (download_with_sparse_checkout env self Stub.boot).2).*1.
Proof.
  cbv zeta. split; [vm_compute; reflexivity|].
  destruct (C3_history_extension (Stub.env "/tmp/tmpx1" false "")
              (init "https://github.com/binnewbs/arch-hyprland/tree/03b85877996253b0518e8a57f6249a4d2dcf4697"
                    Stub.downloads)
              (mkReference "binnewbs" "arch-hyprland"
                 "03b85877996253b0518e8a57f6249a4d2dcf4697" Commit "")
              Stub.boot eq_refl) as (new & Et & Hrule & _ & _).
  assert (In (unshallow_cmd (clone_dir (Stub.env "/tmp/tmpx1" false "")
                (mkReference "binnewbs" "arch-hyprland"
                   "03b85877996253b0518e8a57f6249a4d2dcf4697" Commit "")))
             new.*1) as Hran.
  { apply Hrule. split; [reflexivity|]. exists 1%Z. split; [discriminate|].
    pose proof Et as Enew. vm_compute in Enew. rewrite <- Enew.
    right; left. reflexivity. }
  rewrite Et. exact Hran.
Defined.


Lemma C9_workspace_removed_witness :
  let tmp := ["tmp"; "tmpx1"] in
  let run (broken url : string) :=
    download_with_sparse_checkout (Stub.env "/tmp/tmpx1" true broken)
      (init url Stub.downloads) Stub.boot in
  ((run "" "https://github.com/user/repo/tree/main/src").1
   = inr (true, DownloadCompleted) /\
   FS.lookup tmp (root (run "" "https://github.com/user/repo/tree/main/src").2) = None) /\
  ((run "checkout" "https://github.com/user/repo/tree/main/src").1
   = inr (false, GitCommandFailed ["git"; "-C"; "/tmp/tmpx1/repo"; "checkout"; "main"]) /\
   FS.lookup tmp (root (run "checkout" "https://github.com/user/repo/tree/main/src").2)
   = None) /\
  ((run "" "https://github.com/user/repo/tree/main/docs").1
   = inr (false, NotFound "Folder 'docs' not found in branch 'main'") /\
   FS.lookup tmp (root (run "" "https://github.com/user/repo/tree/main/docs").2) = None).
Proof.
  cbv zeta. split; [|split]; (split; [vm_compute; reflexivity|]).
  - apply (C9_workspace_removed (Stub.env "/tmp/tmpx1" true "")
             (init "https://github.com/user/repo/tree/main/src" Stub.downloads)
             Stub.boot).
    vm_compute. reflexivity.
  - apply (C9_workspace_removed (Stub.env "/tmp/tmpx1" true "checkout")
             (init "https://github.com/user/repo/tree/main/src" Stub.downloads)
             Stub.boot).
    vm_compute. reflexivity.
  - apply (C9_workspace_removed (Stub.env "/tmp/tmpx1" true "")
             (init "https://github.com/user/repo/tree/main/docs" Stub.downloads)
             Stub.boot).
    vm_compute. reflexivity.
Defined.

(** ** The further properties at work on concrete runs *)

(** The [git] of [Stub] writes only where the last word of the command and
    its third word say. *)
Lemma stub_git_leaves (worktree : gmap string node) (has_commit : bool)
    (broken : string) (cmd : list string) (n : node) (q : FS.key) :
  ~ FS.comparable (PurePath.parts (PurePath.of_str (List.last cmd EmptyString))) q ->
  ~ FS.comparable (PurePath.parts (PurePath.of_str (List.nth 2 cmd EmptyString))) q ->
  FS.lookup q (Stub.git worktree has_commit broken cmd n).2 = FS.lookup q n.
Proof.
  intros Hlast Hdir. unfold Stub.git.
  repeat match goal with
         | |- context [if ?b then _ else _] => destruct b
         end; cbn [snd]; try reflexivity;
    match goal with
    | |- context [FS.store ?k ?x n] => destruct (FS.store k x n) eqn:Es
    end; cbn [snd]; try reflexivity;
    eapply lookup_store_frame; eauto.
Qed.



Lemma failed_step_is_last_witness :
  let env := Stub.env "/tmp/tmpx1" true "config" in
  let self := init "https://github.com/user/repo/tree/main/src" Stub.downloads in
  let r := mkReference "user" "repo" "main" Branch "src" in
  parse_github_url (urlparse_path env) self = inr r /\
  exists new,
    trace (download_with_sparse_checkout env self Stub.boot).2 = trace Stub.boot ++ new /\
    stops_at_failure r (clone_dir env r) new.
Proof.
  cbv zeta. split; [reflexivity|].
  apply (failed_step_is_last (Stub.env "/tmp/tmpx1" true "config")
           (init "https://github.com/user/repo/tree/main/src" Stub.downloads)
           (mkReference "user" "repo" "main" Branch "src") Stub.boot).
  reflexivity.
Defined.

Lemma reported_command_failed_last_witness :
  let env := Stub.env "/tmp/tmpx1" true "checkout" in
  let self := init "https://github.com/user/repo/tree/main/src" Stub.downloads in
  let cmd := ["git"; "-C"; "/tmp/tmpx1/repo"; "checkout"; "main"] in
  (download_with_sparse_checkout env self Stub.boot).1
  = inr (false, GitCommandFailed cmd) /\
  exists pre rc,
    trace (download_with_sparse_checkout env self Stub.boot).2
    = trace Stub.boot ++ pre ++ [(cmd, Exited rc)] /\
    rc <> 0%Z.
Proof.
  cbv zeta. split; [vm_compute; reflexivity|].
  apply (reported_command_failed_last (Stub.env "/tmp/tmpx1" true "checkout")
           (init "https://github.com/user/repo/tree/main/src" Stub.downloads)
           Stub.boot).
  vm_compute. reflexivity.
Defined.

Lemma sparse_file_written_witness :
  let env := Stub.env "/tmp/tmpx1" true "" in
  let r := mkReference "user" "repo" "main" Branch "src" in
  let w :=
    mkWorld (Dir {[ "tmp" := Dir {[ "tmpx1" := Dir {[ "repo" :=
               Dir {[ ".git" := Dir {[ "info" := Dir ∅ ]} ]} ]} ]} ]}) [] in
  step2_sparse env r (clone_dir env r) w
  = (inr tt, (step2_sparse env r (clone_dir env r) w).2) /\
  FS.lookup ["tmp"; "tmpx1"; "repo"; ".git"; "info"; "sparse-checkout"]
    (root (step2_sparse env r (clone_dir env r) w).2)
  = Some (File (String.append "src" (String "010" (String.append "src/**" (String "010" ""))))).
Proof.
  intros env r w.
  assert (step2_sparse env r (clone_dir env r) w
          = (inr tt, (step2_sparse env r (clone_dir env r) w).2)) as Hrun
    by (vm_compute; reflexivity).
  split; [exact Hrun|].
  exact (sparse_file_written env r (clone_dir env r) w _ Hrun).
Defined.

Lemma missing_folder_reported_witness :
  let env := Stub.env "/tmp/tmpx1" true "" in
  let self := init "https://github.com/user/repo/tree/main/docs" Stub.downloads in
  let r := mkReference "user" "repo" "main" Branch "docs" in
  let wm := default Stub.boot (checked_out env r Stub.boot) in
  checked_out env r Stub.boot = Some wm /\
  FS.lookup (source env r) (root wm) = None /\
  download_with_sparse_checkout env self Stub.boot
  = (inr (false, NotFound "Folder 'docs' not found in branch 'main'"),
     mkWorld (FS.remove (workspace env) (root wm)) (trace wm)).
Proof.
  cbv zeta. split; [vm_compute; reflexivity|]. split; [vm_compute; reflexivity|].
  apply (missing_folder_reported (Stub.env "/tmp/tmpx1" true "")
           (init "https://github.com/user/repo/tree/main/docs" Stub.downloads)
           (mkReference "user" "repo" "main" Branch "docs") Stub.boot).
  - reflexivity.
  - vm_compute. reflexivity.
  - discriminate.
  - vm_compute. reflexivity.
Defined.

Lemma file_in_place_of_folder_witness :
  let env := Stub.env "/tmp/tmpx1" true "" in
  let self := init "https://github.com/user/repo/blob/main/README.md" Stub.downloads in
  let r := mkReference "user" "repo" "main" Branch "README.md" in
  let w :=
    mkWorld (Dir {[ "tmp" := Dir ∅;
                    "home" := Dir {[ "user" := Dir {[ "Downloads" :=
                       Dir {[ "README.md" := Dir {[ "old.txt" := File "old" ]} ]} ]} ]} ]})
            [] in
  parse_github_url (urlparse_path env) self = inr r /\
  FS.lookup ["home"; "user"; "Downloads"; "README.md"] (root w)
  = Some (Dir {[ "old.txt" := File "old" ]}) /\
  (download_with_sparse_checkout env self w).1
  = inr (false, UnexpectedError (OSError "Not a directory")) /\
  FS.lookup ["home"; "user"; "Downloads"; "README.md"]
    (root (download_with_sparse_checkout env self w).2) = None.
Proof.
  cbv zeta. split; [reflexivity|]. split; [vm_compute; reflexivity|].
  apply (file_in_place_of_folder (Stub.env "/tmp/tmpx1" true "")
           (init "https://github.com/user/repo/blob/main/README.md" Stub.downloads)
           (mkReference "user" "repo" "main" Branch "README.md")
           (mkWorld (Dir {[ "tmp" := Dir ∅;
                            "home" := Dir {[ "user" := Dir {[ "Downloads" :=
                               Dir {[ "README.md" := Dir {[ "old.txt" := File "old" ]} ]} ]} ]} ]})
                    [])
           (default Stub.boot
              (checked_out (Stub.env "/tmp/tmpx1" true "")
                 (mkReference "user" "repo" "main" Branch "README.md")
                 (mkWorld (Dir {[ "tmp" := Dir ∅;
                                  "home" := Dir {[ "user" := Dir {[ "Downloads" :=
                                     Dir {[ "README.md" := Dir {[ "old.txt" := File "old" ]} ]} ]} ]} ]})
                          [])))
           "hello" {[ "old.txt" := File "old" ]}).
  - reflexivity.
  - vm_compute. reflexivity.
  - discriminate.
  - vm_compute. reflexivity.
  - vm_compute. reflexivity.
  - split; intros [[k Hk]|[k Hk]]; vm_compute in Hk; discriminate.
Defined.

Lemma destination_in_output_dir_witness :
  let env := Stub.env "/tmp/tmpx1" true "" in
  let self :=
    init "https://github.com/user/repo/tree/v1.2.0/src/components" Stub.downloads in
  let r := mkReference "user" "repo" "v1.2.0" Tag "src/components" in
  parse_github_url (urlparse_path env) self = inr r /\
  target_name r <> ".." /\
  destination env self r = ["home"; "user"; "Downloads"; "components_v1.2.0"].
Proof.
  cbv zeta. split; [reflexivity|]. split; [discriminate|].
  destruct (destination_in_output_dir (Stub.env "/tmp/tmpx1" true "")
              (init "https://github.com/user/repo/tree/v1.2.0/src/components" Stub.downloads)
              (mkReference "user" "repo" "v1.2.0" Tag "src/components") eq_refl)
    as [_ (tail & -> & -> & _)].
  - discriminate.
  - reflexivity.
Defined.


Lemma main_exit_code_witness :
  let env := Stub.env "/tmp/tmpx1" true "none" in
  let args := Namespace "https://github.com/user/repo/tree/main/src" Stub.downloads in
  main env (SystemExit 2) Stub.boot = (2%Z, Stub.boot) /\
  (main env args Stub.boot).1 = 0%Z /\
  FS.lookup ["home"; "user"; "Downloads"; "src"] (root (main env args Stub.boot).2)
  = Some (Dir {[ "main.py" := File "pass" ]}).
Proof.
  cbv zeta.
  split; [exact (main_exit_code (Stub.env "/tmp/tmpx1" true "none")
                   (SystemExit 2) Stub.boot)|].
  split; [vm_compute; reflexivity|].
  destruct (proj2 (main_exit_code (Stub.env "/tmp/tmpx1" true "none")
                     (Namespace "https://github.com/user/repo/tree/main/src"
                        Stub.downloads)
                     Stub.boot))
    as (_ & _ & r & Hp & _ & Hplace).
  - vm_compute. reflexivity.
  - injection Hp as <-.
    etransitivity; [apply Hplace|].
    + split; intros [[k Hk]|[k Hk]]; vm_compute in Hk; discriminate.
    + vm_compute. reflexivity.
    + vm_compute. reflexivity.
Defined.

Lemma run_leaves_rest_alone_witness :
  let env := Stub.env "/tmp/tmpx1" true "" in
  let self := init "https://github.com/user/repo/tree/main/src" Stub.downloads in
  (download_with_sparse_checkout env self Stub.boot).1
  = inr (true, DownloadCompleted) /\
  FS.lookup ["etc"; "passwd"] (root (download_with_sparse_checkout env self Stub.boot).2)
  = FS.lookup ["etc"; "passwd"] (root Stub.boot).
Proof.
  cbv zeta. split; [vm_compute; reflexivity|].
  apply (run_leaves_rest_alone (Stub.env "/tmp/tmpx1" true "")
           (init "https://github.com/user/repo/tree/main/src" Stub.downloads)
           (mkReference "user" "repo" "main" Branch "src")
           ["etc"; "passwd"] Stub.boot).
  - reflexivity.
  - reflexivity.
  - reflexivity.
  - reflexivity.
  - split; intros [[k Hk]|[k Hk]]; vm_compute in Hk; discriminate.
  - vm_compute. reflexivity.
  - intros [[k Hk]|[k Hk]]; vm_compute in Hk; discriminate.
  - intros [[k Hk]|[k Hk]]; vm_compute in Hk; discriminate.
  - intros cmd n [-> | [-> | [-> | [-> | ->]]]]; apply stub_git_leaves;
      intros [[k Hk]|[k Hk]]; vm_compute in Hk; discriminate.
Defined.

Lemma git_dir_not_copied_witness :
  let env := Stub.env "/tmp/tmpx1" true "" in
  let self := init "https://github.com/user/repo" Stub.downloads in
  let out := root (download_with_sparse_checkout env self Stub.boot).2 in
  (download_with_sparse_checkout env self Stub.boot).1
  = inr (true, DownloadCompleted) /\
  FS.lookup ["home"; "user"; "Downloads"; "repo"; ".git"] out = None /\
  FS.lookup ["home"; "user"; "Downloads"; "repo"; "README.md"] out
  = Some (File "hello").
Proof.
  cbv zeta. split; [vm_compute; reflexivity|].
  destruct (git_dir_not_copied (Stub.env "/tmp/tmpx1" true "")
              (init "https://github.com/user/repo" Stub.downloads)
              (mkReference "user" "repo" "main" Branch "") Stub.boot)
    as (wm & Hwm & Hgit & Hrest).
  - reflexivity.
  - reflexivity.
  - vm_compute. reflexivity.
  - split; intros [[k Hk]|[k Hk]]; vm_compute in Hk; discriminate.
  - vm_compute. reflexivity.
  - split; [exact Hgit|].
    etransitivity; [apply (Hrest "README.md"); discriminate|].
    vm_compute in Hwm. injection Hwm as <-. vm_compute. reflexivity.
Defined.
